(** * wlt_toolkit: display readiness, frame scheduling, buffers and input routing

    A shallow embedding of [src/wlt_toolkit.c] (the Wayland toolkit layer of
    kmscon's wlterm) and the properties its specification states about it.

    Conventions of the embedding.
    - C [unsigned int] and [uint32_t] values are [Z] in [0, 2^32); every
      arithmetic operation of the source that can leave that range is
      followed by [u32], its wrap-around.  Pointer arithmetic is not
      wrapped.
    - Pointers and protocol object handles are [Z], with [NULL = 0].
      A window or widget carries its own address ([wnd_addr],
      [widget_addr]); focus pointers hold such an address.  Functions that
      take a window are embedded for a window that exists; with a [NULL]
      window the source returns at once.
    - Code that runs outside this file (the Wayland client library, the
      event loop, xkbcommon, the widgets' callbacks) is not executed: every
      call into it is appended to a log of [event]s, and whatever it hands
      back is an argument of the embedded function ([sys_env], the
      [bound], [ptr] and [kbd] arguments of the protocol handlers).  Widget
      and window callbacks are logged with their arguments; the effect of
      [prepare_resize_cb] on the proposed width and height is a function
      stored in the widget.  Outside the module [Reentrant] a callback
      makes no call on the toolkit while it runs; the module has the frame
      functions with callbacks that do.
    - Functions of the source that mutate a [struct] are state transformers
      in the monad [M S], which threads the struct and collects the log.
    - Headers of the repository that are not under src/ (wlt_toolkit.h,
      tsm_vte.h, eloop.h): the struct members are typed as the source
      assigns them, and the flag values are parameters.  The event loop's
      idle registry is modelled from the specification. *)

From Stdlib Require Import ZArith List Bool String Lia Permutation.
Import ListNotations.
Open Scope string_scope.
Open Scope list_scope.
Open Scope Z_scope.

(** ** Machine integers and constants *)

Definition u32 (z : Z) : Z := z mod 2 ^ 32.

(** An [unsigned int] passed where the callee takes [int32_t]. *)
Definition s32 (z : Z) : Z :=
  if u32 z <? 2 ^ 31 then u32 z else u32 z - 2 ^ 32.

Definition NULL : Z := 0.

(** [!p] of C on a pointer or integer. *)
Definition is_null (p : Z) : bool := p =? 0.

(* errno.h *)
Definition ENOMEM : Z := 12.
Definition EFAULT : Z := 14.
Definition EINVAL : Z := 22.

(* the anonymous enum of connection states *)
Definition STATE_INIT : Z := 0.
Definition STATE_RUNNING : Z := 1.
Definition STATE_HUP : Z := 2.

(* wayland-client-protocol.h *)
Definition WL_SEAT_CAPABILITY_POINTER : Z := 1.
Definition WL_SEAT_CAPABILITY_KEYBOARD : Z := 2.
Definition WL_SHELL_SURFACE_RESIZE_TOP : Z := 1.
Definition WL_SHELL_SURFACE_RESIZE_LEFT : Z := 4.
Definition WL_SHM_FORMAT_ARGB8888 : Z := 0.
Definition WL_DISPLAY_READABLE : Z := 1.
Definition WL_DISPLAY_WRITABLE : Z := 2.

(* xkbcommon.h *)
Definition XKB_KEY_NoSymbol : Z := 0.
Definition XKB_MOD_NAME_SHIFT : string := "Shift".
Definition XKB_MOD_NAME_CAPS : string := "Lock".
Definition XKB_MOD_NAME_CTRL : string := "Control".
Definition XKB_MOD_NAME_ALT : string := "Mod1".
Definition XKB_MOD_NAME_LOGO : string := "Mod4".

(** The two notifications a display listener receives
    ([enum wlt_display_event] of wlt_toolkit.h). *)
Inductive wlt_display_event : Type :=
| WLT_DISPLAY_HUP
| WLT_DISPLAY_READY.

(** ** Data model *)

Record wlt_pool : Type := {
  w_pool : Z;
  size : Z;
  pool_data : Z
}.

(** [struct wlt_shm_buffer] and [struct wlt_rect] are declared in
    wlt_toolkit.h; their members are [unsigned int] (and [uint8_t *data]),
    as [resize_window] and [wlt_window_do_redraw] assign them. *)
Record wlt_shm_buffer : Type := {
  data : Z;
  width : Z;
  height : Z;
  stride : Z
}.

Record wlt_rect : Type := {
  rect_x : Z;
  rect_y : Z;
  rect_width : Z;
  rect_height : Z
}.

(** Callback slots hold the function pointer ([NULL] when unset).  The
    prepare-resize slot holds what the callback does to the pair it is
    handed through [unsigned int *width, *height]. *)
Record wlt_widget : Type := {
  widget_addr : Z;
  widget_data : Z;
  redraw_cb : Z;
  destroy_cb : Z;
  prepare_resize_cb : option (Z -> Z -> Z * Z);
  resize_cb : Z;
  pointer_enter_cb : Z;
  pointer_leave_cb : Z;
  pointer_motion_cb : Z;
  pointer_button_cb : Z;
  keyboard_cb : Z
}.

Record wlt_window : Type := {
  wnd_addr : Z;
  wnd_data : Z;
  close_cb : Z;
  close_pending : bool;
  pool : option wlt_pool;
  w_surface : Z;
  w_buffer : Z;
  buffer_attached : bool;
  skip_damage : bool;
  need_resize : bool;
  need_redraw : bool;
  need_frame : bool;
  idle_pending : bool;
  new_width : Z;
  new_height : Z;
  resize_edges : Z;
  buffer : wlt_shm_buffer;
  w_frame : Z;
  widget_list : list wlt_widget
}.

(** The xkbcommon state object: the modifier and group masks last handed to
    [xkb_state_update_mask], and the keymap's answers for them. *)
Record xkb_state_obj : Type := {
  xkb_mods : Z * Z * Z * Z;
  xkb_mod_active : Z * Z * Z * Z -> string -> Z;
  xkb_syms : Z * Z * Z * Z -> Z -> list Z
}.

Definition xkb_state_update_mask (st : xkb_state_obj)
    (depressed latched locked group : Z) : xkb_state_obj :=
  {| xkb_mods := (depressed, latched, locked, group);
     xkb_mod_active := xkb_mod_active st;
     xkb_syms := xkb_syms st |}.

Definition xkb_state_mod_name_is_active (st : xkb_state_obj) (name : string)
    : Z :=
  xkb_mod_active st (xkb_mods st) name.

Definition xkb_key_get_syms (st : xkb_state_obj) (code : Z) : list Z :=
  xkb_syms st (xkb_mods st) code.

Record wlt_display : Type := {
  state : Z;
  window_list : list wlt_window;
  w_comp : Z;
  w_seat : Z;
  w_shell : Z;
  w_shm : Z;
  last_serial : Z;
  pointer_enter_serial : Z;
  w_pointer : Z;
  pointer_focus : Z;
  w_keyboard : Z;
  xkb_state : option xkb_state_obj;
  keyboard_focus : Z;
  dp_fd : Z
}.

(** Field updates. *)

Definition set_state (v : Z) (r : wlt_display) : wlt_display :=
  {| state := v; window_list := window_list r; w_comp := w_comp r;
     w_seat := w_seat r; w_shell := w_shell r; w_shm := w_shm r;
     last_serial := last_serial r;
     pointer_enter_serial := pointer_enter_serial r;
     w_pointer := w_pointer r; pointer_focus := pointer_focus r;
     w_keyboard := w_keyboard r; xkb_state := xkb_state r;
     keyboard_focus := keyboard_focus r; dp_fd := dp_fd r |}.

Definition set_w_comp (v : Z) (r : wlt_display) : wlt_display :=
  {| state := state r; window_list := window_list r; w_comp := v;
     w_seat := w_seat r; w_shell := w_shell r; w_shm := w_shm r;
     last_serial := last_serial r;
     pointer_enter_serial := pointer_enter_serial r;
     w_pointer := w_pointer r; pointer_focus := pointer_focus r;
     w_keyboard := w_keyboard r; xkb_state := xkb_state r;
     keyboard_focus := keyboard_focus r; dp_fd := dp_fd r |}.

Definition set_w_seat (v : Z) (r : wlt_display) : wlt_display :=
  {| state := state r; window_list := window_list r; w_comp := w_comp r;
     w_seat := v; w_shell := w_shell r; w_shm := w_shm r;
     last_serial := last_serial r;
     pointer_enter_serial := pointer_enter_serial r;
     w_pointer := w_pointer r; pointer_focus := pointer_focus r;
     w_keyboard := w_keyboard r; xkb_state := xkb_state r;
     keyboard_focus := keyboard_focus r; dp_fd := dp_fd r |}.

Definition set_w_shell (v : Z) (r : wlt_display) : wlt_display :=
  {| state := state r; window_list := window_list r; w_comp := w_comp r;
     w_seat := w_seat r; w_shell := v; w_shm := w_shm r;
     last_serial := last_serial r;
     pointer_enter_serial := pointer_enter_serial r;
     w_pointer := w_pointer r; pointer_focus := pointer_focus r;
     w_keyboard := w_keyboard r; xkb_state := xkb_state r;
     keyboard_focus := keyboard_focus r; dp_fd := dp_fd r |}.

Definition set_w_shm (v : Z) (r : wlt_display) : wlt_display :=
  {| state := state r; window_list := window_list r; w_comp := w_comp r;
     w_seat := w_seat r; w_shell := w_shell r; w_shm := v;
     last_serial := last_serial r;
     pointer_enter_serial := pointer_enter_serial r;
     w_pointer := w_pointer r; pointer_focus := pointer_focus r;
     w_keyboard := w_keyboard r; xkb_state := xkb_state r;
     keyboard_focus := keyboard_focus r; dp_fd := dp_fd r |}.

Definition set_last_serial (v : Z) (r : wlt_display) : wlt_display :=
  {| state := state r; window_list := window_list r; w_comp := w_comp r;
     w_seat := w_seat r; w_shell := w_shell r; w_shm := w_shm r;
     last_serial := v; pointer_enter_serial := pointer_enter_serial r;
     w_pointer := w_pointer r; pointer_focus := pointer_focus r;
     w_keyboard := w_keyboard r; xkb_state := xkb_state r;
     keyboard_focus := keyboard_focus r; dp_fd := dp_fd r |}.

Definition set_pointer_enter_serial (v : Z) (r : wlt_display) : wlt_display :=
  {| state := state r; window_list := window_list r; w_comp := w_comp r;
     w_seat := w_seat r; w_shell := w_shell r; w_shm := w_shm r;
     last_serial := last_serial r; pointer_enter_serial := v;
     w_pointer := w_pointer r; pointer_focus := pointer_focus r;
     w_keyboard := w_keyboard r; xkb_state := xkb_state r;
     keyboard_focus := keyboard_focus r; dp_fd := dp_fd r |}.

Definition set_w_pointer (v : Z) (r : wlt_display) : wlt_display :=
  {| state := state r; window_list := window_list r; w_comp := w_comp r;
     w_seat := w_seat r; w_shell := w_shell r; w_shm := w_shm r;
     last_serial := last_serial r;
     pointer_enter_serial := pointer_enter_serial r; w_pointer := v;
     pointer_focus := pointer_focus r; w_keyboard := w_keyboard r;
     xkb_state := xkb_state r; keyboard_focus := keyboard_focus r;
     dp_fd := dp_fd r |}.

Definition set_pointer_focus (v : Z) (r : wlt_display) : wlt_display :=
  {| state := state r; window_list := window_list r; w_comp := w_comp r;
     w_seat := w_seat r; w_shell := w_shell r; w_shm := w_shm r;
     last_serial := last_serial r;
     pointer_enter_serial := pointer_enter_serial r;
     w_pointer := w_pointer r; pointer_focus := v;
     w_keyboard := w_keyboard r; xkb_state := xkb_state r;
     keyboard_focus := keyboard_focus r; dp_fd := dp_fd r |}.

Definition set_w_keyboard (v : Z) (r : wlt_display) : wlt_display :=
  {| state := state r; window_list := window_list r; w_comp := w_comp r;
     w_seat := w_seat r; w_shell := w_shell r; w_shm := w_shm r;
     last_serial := last_serial r;
     pointer_enter_serial := pointer_enter_serial r;
     w_pointer := w_pointer r; pointer_focus := pointer_focus r;
     w_keyboard := v; xkb_state := xkb_state r;
     keyboard_focus := keyboard_focus r; dp_fd := dp_fd r |}.

Definition set_xkb_state (v : option xkb_state_obj) (r : wlt_display) : wlt_display :=
  {| state := state r; window_list := window_list r; w_comp := w_comp r;
     w_seat := w_seat r; w_shell := w_shell r; w_shm := w_shm r;
     last_serial := last_serial r;
     pointer_enter_serial := pointer_enter_serial r;
     w_pointer := w_pointer r; pointer_focus := pointer_focus r;
     w_keyboard := w_keyboard r; xkb_state := v;
     keyboard_focus := keyboard_focus r; dp_fd := dp_fd r |}.

Definition set_keyboard_focus (v : Z) (r : wlt_display) : wlt_display :=
  {| state := state r; window_list := window_list r; w_comp := w_comp r;
     w_seat := w_seat r; w_shell := w_shell r; w_shm := w_shm r;
     last_serial := last_serial r;
     pointer_enter_serial := pointer_enter_serial r;
     w_pointer := w_pointer r; pointer_focus := pointer_focus r;
     w_keyboard := w_keyboard r; xkb_state := xkb_state r;
     keyboard_focus := v; dp_fd := dp_fd r |}.

Definition set_dp_fd (v : Z) (r : wlt_display) : wlt_display :=
  {| state := state r; window_list := window_list r; w_comp := w_comp r;
     w_seat := w_seat r; w_shell := w_shell r; w_shm := w_shm r;
     last_serial := last_serial r;
     pointer_enter_serial := pointer_enter_serial r;
     w_pointer := w_pointer r; pointer_focus := pointer_focus r;
     w_keyboard := w_keyboard r; xkb_state := xkb_state r;
     keyboard_focus := keyboard_focus r; dp_fd := v |}.

Definition set_close_cb (v : Z) (r : wlt_window) : wlt_window :=
  {| wnd_addr := wnd_addr r; wnd_data := wnd_data r; close_cb := v;
     close_pending := close_pending r; pool := pool r;
     w_surface := w_surface r; w_buffer := w_buffer r;
     buffer_attached := buffer_attached r; skip_damage := skip_damage r;
     need_resize := need_resize r; need_redraw := need_redraw r;
     need_frame := need_frame r; idle_pending := idle_pending r;
     new_width := new_width r; new_height := new_height r;
     resize_edges := resize_edges r; buffer := buffer r;
     w_frame := w_frame r; widget_list := widget_list r |}.

Definition set_close_pending (v : bool) (r : wlt_window) : wlt_window :=
  {| wnd_addr := wnd_addr r; wnd_data := wnd_data r; close_cb := close_cb r;
     close_pending := v; pool := pool r; w_surface := w_surface r;
     w_buffer := w_buffer r; buffer_attached := buffer_attached r;
     skip_damage := skip_damage r; need_resize := need_resize r;
     need_redraw := need_redraw r; need_frame := need_frame r;
     idle_pending := idle_pending r; new_width := new_width r;
     new_height := new_height r; resize_edges := resize_edges r;
     buffer := buffer r; w_frame := w_frame r;
     widget_list := widget_list r |}.

Definition set_pool (v : option wlt_pool) (r : wlt_window) : wlt_window :=
  {| wnd_addr := wnd_addr r; wnd_data := wnd_data r; close_cb := close_cb r;
     close_pending := close_pending r; pool := v; w_surface := w_surface r;
     w_buffer := w_buffer r; buffer_attached := buffer_attached r;
     skip_damage := skip_damage r; need_resize := need_resize r;
     need_redraw := need_redraw r; need_frame := need_frame r;
     idle_pending := idle_pending r; new_width := new_width r;
     new_height := new_height r; resize_edges := resize_edges r;
     buffer := buffer r; w_frame := w_frame r;
     widget_list := widget_list r |}.

Definition set_w_buffer (v : Z) (r : wlt_window) : wlt_window :=
  {| wnd_addr := wnd_addr r; wnd_data := wnd_data r; close_cb := close_cb r;
     close_pending := close_pending r; pool := pool r;
     w_surface := w_surface r; w_buffer := v;
     buffer_attached := buffer_attached r; skip_damage := skip_damage r;
     need_resize := need_resize r; need_redraw := need_redraw r;
     need_frame := need_frame r; idle_pending := idle_pending r;
     new_width := new_width r; new_height := new_height r;
     resize_edges := resize_edges r; buffer := buffer r;
     w_frame := w_frame r; widget_list := widget_list r |}.

Definition set_buffer_attached (v : bool) (r : wlt_window) : wlt_window :=
  {| wnd_addr := wnd_addr r; wnd_data := wnd_data r; close_cb := close_cb r;
     close_pending := close_pending r; pool := pool r;
     w_surface := w_surface r; w_buffer := w_buffer r; buffer_attached := v;
     skip_damage := skip_damage r; need_resize := need_resize r;
     need_redraw := need_redraw r; need_frame := need_frame r;
     idle_pending := idle_pending r; new_width := new_width r;
     new_height := new_height r; resize_edges := resize_edges r;
     buffer := buffer r; w_frame := w_frame r;
     widget_list := widget_list r |}.

Definition set_skip_damage (v : bool) (r : wlt_window) : wlt_window :=
  {| wnd_addr := wnd_addr r; wnd_data := wnd_data r; close_cb := close_cb r;
     close_pending := close_pending r; pool := pool r;
     w_surface := w_surface r; w_buffer := w_buffer r;
     buffer_attached := buffer_attached r; skip_damage := v;
     need_resize := need_resize r; need_redraw := need_redraw r;
     need_frame := need_frame r; idle_pending := idle_pending r;
     new_width := new_width r; new_height := new_height r;
     resize_edges := resize_edges r; buffer := buffer r;
     w_frame := w_frame r; widget_list := widget_list r |}.

Definition set_need_resize (v : bool) (r : wlt_window) : wlt_window :=
  {| wnd_addr := wnd_addr r; wnd_data := wnd_data r; close_cb := close_cb r;
     close_pending := close_pending r; pool := pool r;
     w_surface := w_surface r; w_buffer := w_buffer r;
     buffer_attached := buffer_attached r; skip_damage := skip_damage r;
     need_resize := v; need_redraw := need_redraw r;
     need_frame := need_frame r; idle_pending := idle_pending r;
     new_width := new_width r; new_height := new_height r;
     resize_edges := resize_edges r; buffer := buffer r;
     w_frame := w_frame r; widget_list := widget_list r |}.

Definition set_need_redraw (v : bool) (r : wlt_window) : wlt_window :=
  {| wnd_addr := wnd_addr r; wnd_data := wnd_data r; close_cb := close_cb r;
     close_pending := close_pending r; pool := pool r;
     w_surface := w_surface r; w_buffer := w_buffer r;
     buffer_attached := buffer_attached r; skip_damage := skip_damage r;
     need_resize := need_resize r; need_redraw := v;
     need_frame := need_frame r; idle_pending := idle_pending r;
     new_width := new_width r; new_height := new_height r;
     resize_edges := resize_edges r; buffer := buffer r;
     w_frame := w_frame r; widget_list := widget_list r |}.

Definition set_need_frame (v : bool) (r : wlt_window) : wlt_window :=
  {| wnd_addr := wnd_addr r; wnd_data := wnd_data r; close_cb := close_cb r;
     close_pending := close_pending r; pool := pool r;
     w_surface := w_surface r; w_buffer := w_buffer r;
     buffer_attached := buffer_attached r; skip_damage := skip_damage r;
     need_resize := need_resize r; need_redraw := need_redraw r;
     need_frame := v; idle_pending := idle_pending r;
     new_width := new_width r; new_height := new_height r;
     resize_edges := resize_edges r; buffer := buffer r;
     w_frame := w_frame r; widget_list := widget_list r |}.

Definition set_idle_pending (v : bool) (r : wlt_window) : wlt_window :=
  {| wnd_addr := wnd_addr r; wnd_data := wnd_data r; close_cb := close_cb r;
     close_pending := close_pending r; pool := pool r;
     w_surface := w_surface r; w_buffer := w_buffer r;
     buffer_attached := buffer_attached r; skip_damage := skip_damage r;
     need_resize := need_resize r; need_redraw := need_redraw r;
     need_frame := need_frame r; idle_pending := v; new_width := new_width r;
     new_height := new_height r; resize_edges := resize_edges r;
     buffer := buffer r; w_frame := w_frame r;
     widget_list := widget_list r |}.

Definition set_new_width (v : Z) (r : wlt_window) : wlt_window :=
  {| wnd_addr := wnd_addr r; wnd_data := wnd_data r; close_cb := close_cb r;
     close_pending := close_pending r; pool := pool r;
     w_surface := w_surface r; w_buffer := w_buffer r;
     buffer_attached := buffer_attached r; skip_damage := skip_damage r;
     need_resize := need_resize r; need_redraw := need_redraw r;
     need_frame := need_frame r; idle_pending := idle_pending r;
     new_width := v; new_height := new_height r;
     resize_edges := resize_edges r; buffer := buffer r;
     w_frame := w_frame r; widget_list := widget_list r |}.

Definition set_new_height (v : Z) (r : wlt_window) : wlt_window :=
  {| wnd_addr := wnd_addr r; wnd_data := wnd_data r; close_cb := close_cb r;
     close_pending := close_pending r; pool := pool r;
     w_surface := w_surface r; w_buffer := w_buffer r;
     buffer_attached := buffer_attached r; skip_damage := skip_damage r;
     need_resize := need_resize r; need_redraw := need_redraw r;
     need_frame := need_frame r; idle_pending := idle_pending r;
     new_width := new_width r; new_height := v;
     resize_edges := resize_edges r; buffer := buffer r;
     w_frame := w_frame r; widget_list := widget_list r |}.

Definition set_resize_edges (v : Z) (r : wlt_window) : wlt_window :=
  {| wnd_addr := wnd_addr r; wnd_data := wnd_data r; close_cb := close_cb r;
     close_pending := close_pending r; pool := pool r;
     w_surface := w_surface r; w_buffer := w_buffer r;
     buffer_attached := buffer_attached r; skip_damage := skip_damage r;
     need_resize := need_resize r; need_redraw := need_redraw r;
     need_frame := need_frame r; idle_pending := idle_pending r;
     new_width := new_width r; new_height := new_height r; resize_edges := v;
     buffer := buffer r; w_frame := w_frame r;
     widget_list := widget_list r |}.

Definition set_buffer (v : wlt_shm_buffer) (r : wlt_window) : wlt_window :=
  {| wnd_addr := wnd_addr r; wnd_data := wnd_data r; close_cb := close_cb r;
     close_pending := close_pending r; pool := pool r;
     w_surface := w_surface r; w_buffer := w_buffer r;
     buffer_attached := buffer_attached r; skip_damage := skip_damage r;
     need_resize := need_resize r; need_redraw := need_redraw r;
     need_frame := need_frame r; idle_pending := idle_pending r;
     new_width := new_width r; new_height := new_height r;
     resize_edges := resize_edges r; buffer := v; w_frame := w_frame r;
     widget_list := widget_list r |}.

Definition set_w_frame (v : Z) (r : wlt_window) : wlt_window :=
  {| wnd_addr := wnd_addr r; wnd_data := wnd_data r; close_cb := close_cb r;
     close_pending := close_pending r; pool := pool r;
     w_surface := w_surface r; w_buffer := w_buffer r;
     buffer_attached := buffer_attached r; skip_damage := skip_damage r;
     need_resize := need_resize r; need_redraw := need_redraw r;
     need_frame := need_frame r; idle_pending := idle_pending r;
     new_width := new_width r; new_height := new_height r;
     resize_edges := resize_edges r; buffer := buffer r; w_frame := v;
     widget_list := widget_list r |}.

(** ** The log of calls that leave the toolkit *)

Inductive idle_fn : Type :=
| Idle_frame
| Close_window.

Inductive event : Type :=
(* display listeners and the event loop *)
| Ev_hook_call (e : wlt_display_event)
| Ev_load_cursors
| Ev_eloop_rm_fd (fd : Z)
| Ev_display_iterate (mode : Z)
| Ev_register_idle (cb : idle_fn) (wnd : Z)
| Ev_unregister_idle (cb : idle_fn) (wnd : Z)
(* entry into the resize algorithm *)
| Ev_resize_window (w h : Z)
(* Wayland requests *)
| Ev_add_listener (obj : Z)
| Ev_surface_frame (surface : Z)
| Ev_callback_destroy (cb : Z)
| Ev_pool_new (sz : Z)
| Ev_pool_free (p : wlt_pool)
| Ev_create_buffer (w_pool offset w h strd fmt : Z)
| Ev_buffer_destroy (b : Z)
| Ev_memset (dst len : Z)
| Ev_surface_attach (surface buf x y : Z)
| Ev_surface_damage (surface x y w h : Z)
(* application callbacks *)
| Cb_prepare_resize (widget w h wdata : Z)
| Cb_resize (cb widget : Z) (alloc : wlt_rect) (wdata : Z)
| Cb_redraw (cb widget wdata : Z)
| Cb_pointer_enter (cb widget x y wdata : Z)
| Cb_pointer_leave (cb widget wdata : Z)
| Cb_pointer_motion (cb widget x y wdata : Z)
| Cb_pointer_button (cb widget button st wdata : Z)
| Cb_keyboard (cb widget mask sym st wdata : Z)
| Cb_close (cb wnd wdata : Z).

(** ** State and log monad *)

Definition M (S A : Type) : Type := S -> A * S * list event.

Definition ret {S A : Type} (a : A) : M S A := fun s => (a, s, []).

Definition bind {S A B : Type} (m : M S A) (k : A -> M S B) : M S B :=
  fun s =>
    let '(a, s1, l1) := m s in
    let '(b, s2, l2) := k a s1 in
    (b, s2, l1 ++ l2).

Definition get {S : Type} : M S S := fun s => (s, s, []).
Definition modify {S : Type} (f : S -> S) : M S unit := fun s => (tt, f s, []).
Definition emit {S : Type} (e : event) : M S unit := fun s => (tt, s, [e]).

Declare Scope monad_scope.
Delimit Scope monad_scope with monad.
Notation "x <- m ;; k" := (bind m (fun x => k))
  (at level 61, m at next level, right associativity) : monad_scope.
Notation "m ;; k" := (bind m (fun _ => k))
  (at level 61, right associativity) : monad_scope.
Open Scope monad_scope.

Definition result {S A : Type} (r : A * S * list event) : A := fst (fst r).
Definition final {S A : Type} (r : A * S * list event) : S := snd (fst r).
Definition log {S A : Type} (r : A * S * list event) : list event := snd r.

(** [shl_dlist_for_each]: the loop body runs on every entry in list order. *)
Fixpoint shl_dlist_for_each {S A : Type} (l : list A) (body : A -> M S unit)
    : M S unit :=
  match l with
  | [] => ret tt
  | a :: rest => body a ;; shl_dlist_for_each rest body
  end.

(** [if (c) stmt;] with no else branch. *)
Definition when {S : Type} (c : bool) (m : M S unit) : M S unit :=
  if c then m else ret tt.

(** ** Display connection: readiness state machine *)

(** The object [wlt_display_new] hands out on success: zeroed by [memset],
    with the event-loop registration of the connection's descriptor. *)
Definition wlt_display_new (fd : Z) : wlt_display :=
  {| state := STATE_INIT; window_list := []; w_comp := NULL; w_seat := NULL;
     w_shell := NULL; w_shm := NULL; last_serial := 0;
     pointer_enter_serial := 0; w_pointer := NULL; pointer_focus := NULL;
     w_keyboard := NULL; xkb_state := None; keyboard_focus := NULL;
     dp_fd := fd |}.

Definition check_ready : M wlt_display unit :=
  disp <- get ;;
  if state disp >? STATE_INIT then ret tt
  else if negb (is_null (w_comp disp)) &&
          negb (is_null (w_seat disp)) &&
          negb (is_null (w_shell disp)) &&
          negb (is_null (w_shm disp)) &&
          negb (is_null (w_pointer disp)) &&
          negb (is_null (w_keyboard disp))
  then
    emit Ev_load_cursors ;;
    modify (set_state STATE_RUNNING) ;;
    emit (Ev_hook_call WLT_DISPLAY_READY)
  else ret tt.

(** [ptr] and [kbd] are what [wl_seat_get_pointer] and
    [wl_seat_get_keyboard] return in this call. *)
Definition seat_capabilities (seat caps ptr kbd : Z) : M wlt_display unit :=
  disp <- get ;;
  when (negb (Z.land caps WL_SEAT_CAPABILITY_POINTER =? 0) &&
        is_null (w_pointer disp))
    (modify (set_w_pointer ptr) ;;
     emit (Ev_add_listener ptr)) ;;
  disp <- get ;;
  when (negb (Z.land caps WL_SEAT_CAPABILITY_KEYBOARD =? 0) &&
        is_null (w_keyboard disp))
    (modify (set_w_keyboard kbd) ;;
     emit (Ev_add_listener kbd)) ;;
  check_ready.

(** [bound] is what [wl_display_bind] returns in this call.  The inner
    computation yields [false] where the source returns before reaching the
    final [check_ready]. *)
Definition dp_global (id : Z) (iface : string) (version bound : Z)
    : M wlt_display unit :=
  disp <- get ;;
  proceed <-
    (if (iface =? "wl_display")%string then ret false
     else if (iface =? "wl_compositor")%string then
       if negb (is_null (w_comp disp)) then ret false
       else
         modify (set_w_comp bound) ;;
         if is_null bound then ret false else ret true
     else if (iface =? "wl_seat")%string then
       if negb (is_null (w_seat disp)) then ret false
       else
         modify (set_w_seat bound) ;;
         if is_null bound then ret false
         else emit (Ev_add_listener bound) ;; ret true
     else if (iface =? "wl_shell")%string then
       if negb (is_null (w_shell disp)) then ret false
       else
         modify (set_w_shell bound) ;;
         if is_null bound then ret false else ret true
     else if (iface =? "wl_shm")%string then
       if negb (is_null (w_shm disp)) then ret false
       else
         modify (set_w_shm bound) ;;
         if is_null bound then ret false else ret true
     else ret false) ;;
  if proceed : bool then check_ready else ret tt.

Section Eloop_flags.

(** The readiness flags of eloop.h, which is not under src/. *)
Variables EV_READABLE EV_WRITEABLE EV_HUP EV_ERR : Z.

Definition dp_event (mask : Z) : M wlt_display unit :=
  disp <- get ;;
  if negb (Z.land mask (Z.lor EV_HUP EV_ERR) =? 0) then
    modify (set_state STATE_HUP) ;;
    emit (Ev_hook_call WLT_DISPLAY_HUP) ;;
    emit (Ev_eloop_rm_fd (dp_fd disp)) ;;
    modify (set_dp_fd NULL)
  else
    let mode := 0 in
    let mode := if negb (Z.land mask EV_READABLE =? 0)
                then Z.lor mode WL_DISPLAY_READABLE else mode in
    let mode := if negb (Z.land mask EV_WRITEABLE =? 0)
                then Z.lor mode WL_DISPLAY_WRITABLE else mode in
    when (negb (mode =? 0)) (emit (Ev_display_iterate mode)).

(** What reaches the display object while it waits for its globals. *)
Inductive dp_input : Type :=
| In_global (id : Z) (iface : string) (version bound : Z)
| In_seat_capabilities (seat caps ptr kbd : Z)
| In_dp_event (mask : Z).

Definition dp_step (i : dp_input) : M wlt_display unit :=
  match i with
  | In_global id iface version bound => dp_global id iface version bound
  | In_seat_capabilities seat caps ptr kbd =>
      seat_capabilities seat caps ptr kbd
  | In_dp_event mask => dp_event mask
  end.

Definition dp_run (l : list dp_input) : M wlt_display unit :=
  shl_dlist_for_each l dp_step.

(** A transport hangup or error. *)
Definition is_hup (i : dp_input) : Prop :=
  match i with
  | In_dp_event mask => Z.land mask (Z.lor EV_HUP EV_ERR) <> 0
  | _ => False
  end.

End Eloop_flags.

(** The six readiness conditions. *)
Inductive ready_cond : Type :=
| Ready_comp | Ready_seat | Ready_shell | Ready_shm
| Ready_pointer | Ready_keyboard.

Definition all_ready_conds : list ready_cond :=
  [Ready_comp; Ready_seat; Ready_shell; Ready_shm;
   Ready_pointer; Ready_keyboard].

Definition ready_handle (c : ready_cond) (disp : wlt_display) : Z :=
  match c with
  | Ready_comp => w_comp disp
  | Ready_seat => w_seat disp
  | Ready_shell => w_shell disp
  | Ready_shm => w_shm disp
  | Ready_pointer => w_pointer disp
  | Ready_keyboard => w_keyboard disp
  end.

Definition holds (c : ready_cond) (disp : wlt_display) : Prop :=
  ready_handle c disp <> NULL.

(** Input [i] makes condition [c] true when it is still false. *)
Definition delivers (i : dp_input) (c : ready_cond) : Prop :=
  match i, c with
  | In_global _ iface _ bound, Ready_comp =>
      iface = "wl_compositor" /\ bound <> NULL
  | In_global _ iface _ bound, Ready_seat =>
      iface = "wl_seat" /\ bound <> NULL
  | In_global _ iface _ bound, Ready_shell =>
      iface = "wl_shell" /\ bound <> NULL
  | In_global _ iface _ bound, Ready_shm =>
      iface = "wl_shm" /\ bound <> NULL
  | In_seat_capabilities _ caps ptr _, Ready_pointer =>
      Z.land caps WL_SEAT_CAPABILITY_POINTER <> 0 /\ ptr <> NULL
  | In_seat_capabilities _ caps _ kbd, Ready_keyboard =>
      Z.land caps WL_SEAT_CAPABILITY_KEYBOARD <> 0 /\ kbd <> NULL
  | _, _ => False
  end.

(** The test of [check_ready]: all six handles are bound. *)
Definition all_bound (disp : wlt_display) : bool :=
  negb (is_null (w_comp disp)) && negb (is_null (w_seat disp)) &&
  negb (is_null (w_shell disp)) && negb (is_null (w_shm disp)) &&
  negb (is_null (w_pointer disp)) && negb (is_null (w_keyboard disp)).

(** The invariant of the connection: READY has been broadcast exactly when
    the state left INIT through [check_ready], which happens exactly when
    all six handles are bound. *)
Definition ready_inv (disp : wlt_display) (n : nat) : Prop :=
  (state disp = STATE_INIT /\ n = 0%nat /\ all_bound disp = false) \/
  (state disp = STATE_RUNNING /\ n = 1%nat /\ all_bound disp = true) \/
  (state disp = STATE_HUP /\ (n <= 1)%nat).

(** The arrival of one condition on its own, with a live handle [h]. *)
Definition arrival (h : ready_cond -> Z) (c : ready_cond) : dp_input :=
  match c with
  | Ready_comp => In_global 1 "wl_compositor" 1 (h c)
  | Ready_seat => In_global 2 "wl_seat" 1 (h c)
  | Ready_shell => In_global 3 "wl_shell" 1 (h c)
  | Ready_shm => In_global 4 "wl_shm" 1 (h c)
  | Ready_pointer =>
      In_seat_capabilities (h Ready_seat) WL_SEAT_CAPABILITY_POINTER (h c) NULL
  | Ready_keyboard =>
      In_seat_capabilities (h Ready_seat) WL_SEAT_CAPABILITY_KEYBOARD NULL (h c)
  end.

Definition is_ready_event (e : event) : bool :=
  match e with
  | Ev_hook_call WLT_DISPLAY_READY => true
  | _ => false
  end.

(** How often the READY notification was broadcast. *)
Definition ready_count (l : list event) : nat :=
  List.length (filter is_ready_event l).

(** ** Input router *)

(** The scan of [disp->window_list] for the window that owns a surface. *)
Definition window_of_surface (disp : wlt_display) (surface : Z)
    : option wlt_window :=
  find (fun wnd => w_surface wnd =? surface) (window_list disp).

(** Following a focus pointer to the window it points to.  A focus pointer
    that points to no window of the list is outside the model (the source
    would follow a dangling pointer); the handlers then dispatch nothing. *)
Definition window_at (disp : wlt_display) (p : Z) : option wlt_window :=
  find (fun wnd => wnd_addr wnd =? p) (window_list disp).

Definition pointer_enter (serial surface x y : Z) : M wlt_display unit :=
  disp <- get ;;
  if is_null surface then ret tt
  else
    match window_of_surface disp surface with
    | None => ret tt
    | Some wnd =>
        modify (set_pointer_enter_serial serial) ;;
        modify (set_last_serial serial) ;;
        modify (set_pointer_focus (wnd_addr wnd)) ;;
        shl_dlist_for_each (widget_list wnd) (fun widget =>
          when (negb (is_null (pointer_enter_cb widget)))
            (emit (Cb_pointer_enter (pointer_enter_cb widget)
                     (widget_addr widget) (Z.shiftr x 8) (Z.shiftr y 8)
                     (widget_data widget))))
    end.

Definition pointer_leave (serial surface : Z) : M wlt_display unit :=
  disp <- get ;;
  let wnd := pointer_focus disp in
  modify (set_pointer_focus NULL) ;;
  modify (set_last_serial serial) ;;
  if is_null wnd then ret tt
  else
    match window_at disp wnd with
    | None => ret tt
    | Some wnd =>
        shl_dlist_for_each (widget_list wnd) (fun widget =>
          when (negb (is_null (pointer_leave_cb widget)))
            (emit (Cb_pointer_leave (pointer_leave_cb widget)
                     (widget_addr widget) (widget_data widget))))
    end.

Definition pointer_motion (time x y : Z) : M wlt_display unit :=
  disp <- get ;;
  let wnd := pointer_focus disp in
  if is_null wnd then ret tt
  else
    match window_at disp wnd with
    | None => ret tt
    | Some wnd =>
        shl_dlist_for_each (widget_list wnd) (fun widget =>
          when (negb (is_null (pointer_motion_cb widget)))
            (emit (Cb_pointer_motion (pointer_motion_cb widget)
                     (widget_addr widget) (Z.shiftr x 8) (Z.shiftr y 8)
                     (widget_data widget))))
    end.

Definition pointer_button (serial time button st : Z)
    : M wlt_display unit :=
  disp <- get ;;
  let wnd := pointer_focus disp in
  modify (set_last_serial serial) ;;
  if is_null wnd then ret tt
  else
    match window_at disp wnd with
    | None => ret tt
    | Some wnd =>
        shl_dlist_for_each (widget_list wnd) (fun widget =>
          when (negb (is_null (pointer_button_cb widget)))
            (emit (Cb_pointer_button (pointer_button_cb widget)
                     (widget_addr widget) button st (widget_data widget))))
    end.

Definition keyboard_enter (serial surface : Z) : M wlt_display unit :=
  disp <- get ;;
  modify (set_last_serial serial) ;;
  match xkb_state disp with
  | None => ret tt
  | Some _ =>
      if is_null surface then ret tt
      else
        match window_of_surface disp surface with
        | None => ret tt
        | Some wnd => modify (set_keyboard_focus (wnd_addr wnd))
        end
  end.

Definition keyboard_leave (serial surface : Z) : M wlt_display unit :=
  modify (set_last_serial serial) ;;
  modify (set_keyboard_focus NULL).

Definition keyboard_modifiers
    (serial mods_depressed mods_latched mods_locked group : Z)
    : M wlt_display unit :=
  disp <- get ;;
  modify (set_last_serial serial) ;;
  match xkb_state disp with
  | None => ret tt
  | Some st =>
      modify (set_xkb_state
                (Some (xkb_state_update_mask st mods_depressed mods_latched
                         mods_locked group)))
  end.

Section Modifier_masks.

(** The modifier bits of tsm_vte.h, which is not under src/. *)
Variables TSM_SHIFT_MASK TSM_LOCK_MASK TSM_CONTROL_MASK : Z.
Variables TSM_MOD1_MASK TSM_MOD4_MASK : Z.

Definition get_effective_modmask (st : xkb_state_obj) : Z :=
  let mods := 0 in
  let mods :=
    if negb (xkb_state_mod_name_is_active st XKB_MOD_NAME_SHIFT =? 0)
    then Z.lor mods TSM_SHIFT_MASK else mods in
  let mods :=
    if negb (xkb_state_mod_name_is_active st XKB_MOD_NAME_CAPS =? 0)
    then Z.lor mods TSM_LOCK_MASK else mods in
  let mods :=
    if negb (xkb_state_mod_name_is_active st XKB_MOD_NAME_CTRL =? 0)
    then Z.lor mods TSM_CONTROL_MASK else mods in
  let mods :=
    if negb (xkb_state_mod_name_is_active st XKB_MOD_NAME_ALT =? 0)
    then Z.lor mods TSM_MOD1_MASK else mods in
  let mods :=
    if negb (xkb_state_mod_name_is_active st XKB_MOD_NAME_LOGO =? 0)
    then Z.lor mods TSM_MOD4_MASK else mods in
  mods.

Definition keyboard_key (serial time key state_w : Z)
    : M wlt_display unit :=
  disp <- get ;;
  let wnd := keyboard_focus disp in
  modify (set_last_serial serial) ;;
  match xkb_state disp with
  | None => ret tt
  | Some st =>
      let code := u32 (key + 8) in
      if is_null wnd then ret tt
      else
        match window_at disp wnd with
        | None => ret tt
        | Some wnd =>
            let mask := get_effective_modmask st in
            let syms := xkb_key_get_syms st code in
            let sym := match syms with
                       | [s] => s
                       | _ => XKB_KEY_NoSymbol
                       end in
            shl_dlist_for_each (widget_list wnd) (fun widget =>
              when (negb (is_null (keyboard_cb widget)))
                (emit (Cb_keyboard (keyboard_cb widget) (widget_addr widget)
                         mask sym state_w (widget_data widget))))
        end
  end.

End Modifier_masks.

(** Modelled from the spec: the enumerators of tsm_vte.h are "five
    independent bits", each a single bit [1 << b]; which bit each one is
    stays a parameter of the theorems. *)
Definition tsm_bit (b : Z) : Z := Z.shiftl 1 b.

(** A modifier is active when the xkbcommon query (always made with
    [XKB_STATE_EFFECTIVE]) answers non-zero. *)
Definition mod_active (st : xkb_state_obj) (name : string) : bool :=
  negb (xkb_state_mod_name_is_active st name =? 0).

(** ** Event loop: idle callbacks *)

(** Modelled from the spec: the idle-callback registry of the event loop
    (eloop.c is not under src/).  The toolkit consumes "register_idle" and
    "unregister_idle", where "callback identity + opaque data" is "the
    unregistration key", and idle callbacks run in registration order
    ("strict FIFO").  Each registration is an entry of its own (the design
    notes liken it to a cancellation token that one cancellation consumes).
    A registration is "one-shot": it leaves the list when the event loop
    fires it ([idle_dispatch]) or when it is unregistered before that. *)
Definition ev_eloop : Type := list (idle_fn * Z).

Definition idle_fn_eqb (a b : idle_fn) : bool :=
  match a, b with
  | Idle_frame, Idle_frame | Close_window, Close_window => true
  | _, _ => false
  end.

Definition idle_key_eqb (cb : idle_fn) (d : Z) (e : idle_fn * Z) : bool :=
  idle_fn_eqb cb (fst e) && (d =? snd e).

(** Modelled from the spec: [ev_eloop_register_idle_cb] of eloop.c, which
    adds a registration of callback [cb] with data [d] behind the ones
    already there. *)
Definition ev_eloop_register_idle_cb (cb : idle_fn) (d : Z) (el : ev_eloop)
    : ev_eloop :=
  el ++ [(cb, d)].

(** Modelled from the spec: [ev_eloop_unregister_idle_cb] of eloop.c, which
    drops one registration with the given key, if there is one. *)
Fixpoint ev_eloop_unregister_idle_cb (cb : idle_fn) (d : Z) (el : ev_eloop)
    : ev_eloop :=
  match el with
  | [] => []
  | e :: rest =>
      if idle_key_eqb cb d e then rest
      else e :: ev_eloop_unregister_idle_cb cb d rest
  end.

Definition idle_registered (cb : idle_fn) (d : Z) (el : ev_eloop) : bool :=
  existsb (idle_key_eqb cb d) el.

(** ** Windows *)

(** What the system and the compositor connection answer during one call. *)
Record sys_env : Type := {
  env_runtime_dir : bool;      (* getenv("XDG_RUNTIME_DIR") is set *)
  env_malloc_pool : bool;      (* malloc of the pool succeeded *)
  env_malloc_name : bool;      (* malloc of the file name succeeded *)
  env_mkostemp : Z;            (* descriptor, negative on failure *)
  env_ftruncate : Z;           (* return value, non-zero on failure *)
  env_mmap : Z;                (* mapped address, or MAP_FAILED *)
  env_shm_create_pool : Z;     (* wl_shm_create_pool *)
  env_create_buffer : Z;       (* wl_shm_pool_create_buffer *)
  env_surface_frame : Z        (* wl_surface_frame *)
}.

Definition MAP_FAILED : Z := -1.

(** A window together with the event loop it reaches through
    [wnd->disp->eloop]. *)
Record wstate : Type := {
  st_wnd : wlt_window;
  st_idlers : ev_eloop
}.

Definition get_wnd : M wstate wlt_window :=
  fun st => (st_wnd st, st, []).

Definition modify_wnd (f : wlt_window -> wlt_window) : M wstate unit :=
  modify (fun st => {| st_wnd := f (st_wnd st); st_idlers := st_idlers st |}).

Definition register_idle (cb : idle_fn) : M wstate unit :=
  wnd <- get_wnd ;;
  modify (fun st =>
            {| st_wnd := st_wnd st;
               st_idlers :=
                 ev_eloop_register_idle_cb cb (wnd_addr wnd) (st_idlers st) |}) ;;
  emit (Ev_register_idle cb (wnd_addr wnd)).

Definition unregister_idle (cb : idle_fn) : M wstate unit :=
  wnd <- get_wnd ;;
  modify (fun st =>
            {| st_wnd := st_wnd st;
               st_idlers :=
                 ev_eloop_unregister_idle_cb cb (wnd_addr wnd) (st_idlers st) |}) ;;
  emit (Ev_unregister_idle cb (wnd_addr wnd)).

(** The result is the return value and, on success, the pool stored
    through [out]. *)
Definition wlt_pool_new (env : sys_env) (sz : Z) : Z * option wlt_pool :=
  if negb (env_runtime_dir env) then (- EFAULT, None)
  else if negb (env_malloc_pool env) then (- ENOMEM, None)
  else if negb (env_malloc_name env) then (- ENOMEM, None)
  else if env_mkostemp env <? 0 then (- EFAULT, None)
  else if negb (env_ftruncate env =? 0) then (- EFAULT, None)
  else if env_mmap env =? MAP_FAILED then (- EFAULT, None)
  else if is_null (env_shm_create_pool env) then (- EFAULT, None)
  else (0, Some {| w_pool := env_shm_create_pool env; size := sz;
                   pool_data := env_mmap env |}).

Definition wlt_window_do_redraw (oldw oldh : Z) : M wstate unit :=
  wnd <- get_wnd ;;
  let alloc := {| rect_x := 0; rect_y := 0;
                  rect_width := width (buffer wnd);
                  rect_height := height (buffer wnd) |} in
  shl_dlist_for_each (widget_list wnd) (fun widget =>
    when (negb (is_null (resize_cb widget)))
      (emit (Cb_resize (resize_cb widget) (widget_addr widget) alloc
               (widget_data widget)))) ;;
  emit (Ev_memset (data (buffer wnd))
          (u32 (stride (buffer wnd) * height (buffer wnd)))) ;;
  modify_wnd (set_skip_damage true) ;;
  shl_dlist_for_each (widget_list wnd) (fun widget =>
    when (negb (is_null (redraw_cb widget)))
      (emit (Cb_redraw (redraw_cb widget) (widget_addr widget)
               (widget_data widget)))) ;;
  modify_wnd (set_skip_damage false) ;;
  wnd <- get_wnd ;;
  when (negb (buffer_attached wnd))
    (modify_wnd (set_buffer_attached true) ;;
     let x := if negb (Z.land (resize_edges wnd)
                         WL_SHELL_SURFACE_RESIZE_LEFT =? 0)
              then u32 (oldw - width (buffer wnd)) else 0 in
     let y := if negb (Z.land (resize_edges wnd)
                         WL_SHELL_SURFACE_RESIZE_TOP =? 0)
              then u32 (oldh - height (buffer wnd)) else 0 in
     emit (Ev_surface_attach (w_surface wnd) (w_buffer wnd) (s32 x) (s32 y)) ;;
     modify_wnd (set_resize_edges 0)) ;;
  emit (Ev_surface_damage (w_surface wnd) 0 0
          (s32 (width (buffer wnd))) (s32 (height (buffer wnd)))).

(** The loop that lets every widget adjust the proposed size through
    [unsigned int *width, *height]. *)
Fixpoint prepare_resize (l : list wlt_widget) (w h : Z) : M wstate (Z * Z) :=
  match l with
  | [] => ret (w, h)
  | widget :: rest =>
      match prepare_resize_cb widget with
      | Some cb =>
          emit (Cb_prepare_resize (widget_addr widget) w h
                  (widget_data widget)) ;;
          prepare_resize rest (u32 (fst (cb w h))) (u32 (snd (cb w h)))
      | None => prepare_resize rest w h
      end
  end.

Definition pool_handle (o : option wlt_pool) : Z :=
  match o with Some p => w_pool p | None => NULL end.

Definition pool_base (o : option wlt_pool) : Z :=
  match o with Some p => pool_data p | None => NULL end.

(** [wnd->pool && wnd->pool->size >= nsize] *)
Definition pool_fits (o : option wlt_pool) (nsize : Z) : bool :=
  match o with Some p => size p >=? nsize | None => false end.

(** [if (pool) wlt_pool_free(pool);] *)
Definition free_pool (o : option wlt_pool) : M wstate unit :=
  match o with Some p => emit (Ev_pool_free p) | None => ret tt end.

(** [resize_window].  Each run is also entered in the log, with the size it
    was asked for.  The allocation step yields [inl ret] where the source
    returns [ret] early, and otherwise the buffer and pool to release after
    the redraw. *)
Definition resize_window (env : sys_env) (w h : Z) : M wstate Z :=
  emit (Ev_resize_window w h) ;;
  if is_null w || is_null h then ret (- EINVAL)
  else
    wnd <- get_wnd ;;
    adj <- prepare_resize (widget_list wnd) w h ;;
    let w := fst adj in
    let h := snd adj in
    if (w =? width (buffer wnd)) && (h =? height (buffer wnd)) then ret 0
    else
      let oldw := width (buffer wnd) in
      let oldh := height (buffer wnd) in
      let nsize := u32 (u32 (w * h) * 4) in
      alloc <-
        (if pool_fits (pool wnd) nsize then
           let old_buffer := w_buffer wnd in
           emit (Ev_create_buffer (pool_handle (pool wnd)) 0 w h
                   (u32 (w * 4)) WL_SHM_FORMAT_ARGB8888) ;;
           modify_wnd (set_w_buffer (env_create_buffer env)) ;;
           if is_null (env_create_buffer env) then
             modify_wnd (set_w_buffer old_buffer) ;;
             ret (inl (- ENOMEM))
           else ret (inr (old_buffer, None))
         else
           let old_pool := pool wnd in
           emit (Ev_pool_new nsize) ;;
           let created := wlt_pool_new env nsize in
           if negb (fst created =? 0) then
             modify_wnd (set_pool old_pool) ;;
             ret (inl (fst created))
           else
             modify_wnd (set_pool (snd created)) ;;
             let old_buffer := w_buffer wnd in
             emit (Ev_create_buffer (pool_handle (snd created)) 0 w h
                     (u32 (w * 4)) WL_SHM_FORMAT_ARGB8888) ;;
             modify_wnd (set_w_buffer (env_create_buffer env)) ;;
             if is_null (env_create_buffer env) then
               modify_wnd (set_w_buffer old_buffer) ;;
               free_pool (snd created) ;;
               modify_wnd (set_pool old_pool) ;;
               ret (inl (- ENOMEM))
             else ret (inr (old_buffer, old_pool))) ;;
      match alloc with
      | inl err => ret err
      | inr (old_buffer, old_pool) =>
          wnd <- get_wnd ;;
          modify_wnd (set_buffer {| data := pool_base (pool wnd);
                                    width := w; height := h;
                                    stride := u32 (w * 4) |}) ;;
          modify_wnd (set_buffer_attached false) ;;
          wlt_window_do_redraw oldw oldh ;;
          when (negb (is_null old_buffer)) (emit (Ev_buffer_destroy old_buffer)) ;;
          free_pool old_pool ;;
          ret 0
      end.

Definition do_frame (env : sys_env) : M wstate unit :=
  modify_wnd (set_idle_pending false) ;;
  unregister_idle Idle_frame ;;
  wnd <- get_wnd ;;
  when (need_resize wnd)
    (modify_wnd (set_need_resize false) ;;
     modify_wnd (set_need_redraw false) ;;
     resize_window env (new_width wnd) (new_height wnd) ;;
     ret tt) ;;
  wnd <- get_wnd ;;
  when (need_redraw wnd)
    (modify_wnd (set_need_redraw false) ;;
     wlt_window_do_redraw (width (buffer wnd)) (height (buffer wnd))).

Definition frame_callback (env : sys_env) (w_callback time : Z)
    : M wstate unit :=
  emit (Ev_callback_destroy w_callback) ;;
  modify_wnd (set_w_frame NULL) ;;
  modify_wnd (set_need_frame false) ;;
  do_frame env.

Definition idle_frame (env : sys_env) : M wstate unit :=
  modify_wnd (set_need_frame true) ;;
  do_frame env.

Definition schedule_frame (env : sys_env) : M wstate unit :=
  wnd <- get_wnd ;;
  if negb (is_null (w_frame wnd)) then ret tt
  else
    when (negb (need_frame wnd) && negb (idle_pending wnd))
      (modify_wnd (set_idle_pending true) ;;
       register_idle Idle_frame ;;
       emit (Ev_surface_frame (w_surface wnd)) ;;
       modify_wnd (set_w_frame (env_surface_frame env)) ;;
       emit (Ev_add_listener (env_surface_frame env))).

Definition close_window : M wstate unit :=
  unregister_idle Close_window ;;
  modify_wnd (set_close_pending false) ;;
  wnd <- get_wnd ;;
  when (negb (is_null (close_cb wnd)))
    (emit (Cb_close (close_cb wnd) (wnd_addr wnd) (wnd_data wnd))).

Definition wlt_window_schedule_redraw (env : sys_env) : M wstate unit :=
  modify_wnd (set_need_redraw true) ;;
  schedule_frame env.

Definition wlt_window_set_size (env : sys_env) (w h : Z) : M wstate Z :=
  if is_null w || is_null h then ret (- EINVAL)
  else
    modify_wnd (set_new_width w) ;;
    modify_wnd (set_new_height h) ;;
    modify_wnd (set_need_resize true) ;;
    schedule_frame env ;;
    ret 0.

(** [width] and [height] arrive as [int32_t]. *)
Definition shell_surface_configure (env : sys_env) (edges w h : Z)
    : M wstate unit :=
  let w := if w <=? 0 then 1 else w in
  let h := if h <=? 0 then 1 else h in
  modify_wnd (set_resize_edges edges) ;;
  wlt_window_set_size env w h ;;
  ret tt.

Definition wlt_window_set_close_cb (cb : Z) : M wstate unit :=
  modify_wnd (set_close_cb cb).

Definition wlt_window_close : M wstate unit :=
  modify_wnd (set_close_pending true) ;;
  register_idle Close_window.

(** Modelled from the spec: the idle dispatch of eloop.c.  Idle callbacks
    are one-shot: to fire a registered callback of the window the event
    loop takes its oldest registration off the list and then runs the
    callback; with no registration of the callback it does nothing. *)
Definition idle_dispatch (env : sys_env) (cb : idle_fn) : M wstate unit :=
  st <- get ;;
  if idle_registered cb (wnd_addr (st_wnd st)) (st_idlers st) then
    modify (fun st =>
              {| st_wnd := st_wnd st;
                 st_idlers :=
                   ev_eloop_unregister_idle_cb cb (wnd_addr (st_wnd st))
                     (st_idlers st) |}) ;;
    match cb with
    | Idle_frame => idle_frame env
    | Close_window => close_window
    end
  else ret tt.

(** [wlt_window_get_buffer]: the descriptor stored through [buf], which held
    [buf0] before the call.  [alloc] is [None] for a [NULL] rectangle. *)
Definition wlt_window_get_buffer (wnd : wlt_window) (alloc : option wlt_rect)
    (buf0 : wlt_shm_buffer) : wlt_shm_buffer :=
  let rbuf := buffer wnd in
  match alloc with
  | None => rbuf
  | Some alloc =>
      if (rect_x alloc >=? width rbuf) || (rect_y alloc >=? height rbuf)
      then {| data := NULL; width := 0; height := 0; stride := 0 |}
      else
        {| data := data rbuf + u32 (rect_y alloc * stride rbuf)
                   + u32 (rect_x alloc * 4);
           width := if u32 (rect_x alloc + rect_width alloc) >? width rbuf
                    then u32 (width rbuf - rect_x alloc)
                    else rect_width alloc;
           height := if u32 (rect_y alloc + rect_height alloc) >? height rbuf
                     then u32 (height rbuf - rect_y alloc)
                     else rect_height alloc;
           stride := stride rbuf |}
  end.

(** ** Observations on a log *)

Definition resize_run_of (e : event) : list (Z * Z) :=
  match e with
  | Ev_resize_window w h => [(w, h)]
  | _ => []
  end.

(** The sizes the resize algorithm was run with, in order. *)
Definition resize_runs (l : list event) : list (Z * Z) :=
  flat_map resize_run_of l.

Arguments resize_runs : simpl never.

Definition is_close_cb (e : event) : bool :=
  match e with Cb_close _ _ _ => true | _ => false end.

Definition close_cb_count (l : list event) : nat :=
  List.length (filter is_close_cb l).

Definition is_resize_or_redraw_cb (e : event) : bool :=
  match e with
  | Cb_resize _ _ _ _ | Cb_redraw _ _ _ => true
  | _ => false
  end.

Definition is_allocation (e : event) : bool :=
  match e with
  | Ev_pool_new _ | Ev_create_buffer _ _ _ _ _ _ => true
  | _ => false
  end.

(** No event of the log satisfies [p]. *)
Definition none_of (p : event -> bool) (l : list event) : Prop :=
  forallb (fun e => negb (p e)) l = true.

(** The size the widgets' prepare-resize callbacks turn a proposed size
    into, and the calls this takes: the two outputs of [prepare_resize]. *)
Fixpoint adjusted_size (l : list wlt_widget) (w h : Z) : Z * Z :=
  match l with
  | [] => (w, h)
  | widget :: rest =>
      match prepare_resize_cb widget with
      | Some cb => adjusted_size rest (u32 (fst (cb w h))) (u32 (snd (cb w h)))
      | None => adjusted_size rest w h
      end
  end.

Fixpoint prepare_log (l : list wlt_widget) (w h : Z) : list event :=
  match l with
  | [] => []
  | widget :: rest =>
      match prepare_resize_cb widget with
      | Some cb =>
          Cb_prepare_resize (widget_addr widget) w h (widget_data widget)
          :: prepare_log rest (u32 (fst (cb w h))) (u32 (snd (cb w h)))
      | None => prepare_log rest w h
      end
  end.

(** The committed size of a window. *)
Definition committed_size (wnd : wlt_window) : Z * Z :=
  (width (buffer wnd), height (buffer wnd)).

(** A run of [wlt_window_set_size] calls. *)
Definition set_sizes (env : sys_env) (calls : list (Z * Z)) : M wstate unit :=
  shl_dlist_for_each calls (fun c =>
    wlt_window_set_size env (fst c) (snd c) ;; ret tt).

(** A call that passes the argument check of [wlt_window_set_size]. *)
Definition accepted (c : Z * Z) : bool :=
  negb (is_null (fst c) || is_null (snd c)).

Definition last_accepted (calls : list (Z * Z)) : option (Z * Z) :=
  fold_left (fun acc c => if accepted c then Some c else acc) calls None.

(** The window has a resize pending for the pair [acc], if any. *)
Definition pending_target (wnd : wlt_window) (acc : option (Z * Z)) : Prop :=
  match acc with
  | Some (w, h) =>
      need_resize wnd = true /\ new_width wnd = w /\ new_height wnd = h
  | None => True
  end.

(** What can happen to a window between two frames. *)
Inductive wnd_op : Type :=
| Op_set_size (w h : Z)
| Op_configure (edges w h : Z)
| Op_schedule_redraw
| Op_set_close_cb (cb : Z)
| Op_close
| Op_idle (cb : idle_fn)
| Op_frame_callback (w_callback time : Z).

Definition wnd_step (env : sys_env) (op : wnd_op) : M wstate unit :=
  match op with
  | Op_set_size w h => wlt_window_set_size env w h ;; ret tt
  | Op_configure edges w h => shell_surface_configure env edges w h
  | Op_schedule_redraw => wlt_window_schedule_redraw env
  | Op_set_close_cb cb => wlt_window_set_close_cb cb
  | Op_close => wlt_window_close
  | Op_idle cb => idle_dispatch env cb
  | Op_frame_callback w_callback time => frame_callback env w_callback time
  end.

Definition wnd_run (env : sys_env) (ops : list wnd_op) : M wstate unit :=
  shl_dlist_for_each ops (wnd_step env).

(** A pending resize has a target with non-zero width and height. *)
Definition target_ok (wnd : wlt_window) : Prop :=
  need_resize wnd = true -> new_width wnd <> 0 /\ new_height wnd <> 0.

(** ** Callbacks that call back *)

(** The definitions above record that a callback of a widget is called
    and, for the prepare-resize callback, what it stores through its size
    arguments.  A callback is a function of the application: while it runs
    it may call the toolkit on its window.  The definitions below are the
    frame functions with callbacks that do. *)

(** [wlt_window_damage]; [damage] is [None] for a [NULL] rectangle. *)
Definition wlt_window_damage (damage : option wlt_rect) : M wstate unit :=
  wnd <- get_wnd ;;
  match damage with
  | None => ret tt
  | Some damage =>
      if skip_damage wnd then ret tt
      else emit (Ev_surface_damage (w_surface wnd)
                   (s32 (rect_x damage)) (s32 (rect_y damage))
                   (s32 (rect_width damage)) (s32 (rect_height damage)))
  end.

(** A call that a callback makes on its window. *)
Inductive api_call : Type :=
| Api_schedule_redraw
| Api_set_size (w h : Z)
| Api_set_close_cb (cb : Z)
| Api_close
| Api_damage (damage : wlt_rect).

Definition api_step (env : sys_env) (c : api_call) : M wstate unit :=
  match c with
  | Api_schedule_redraw => wlt_window_schedule_redraw env
  | Api_set_size w h => wlt_window_set_size env w h ;; ret tt
  | Api_set_close_cb cb => wlt_window_set_close_cb cb
  | Api_close => wlt_window_close
  | Api_damage damage => wlt_window_damage (Some damage)
  end.

(** What the callbacks of the widgets do besides returning: the calls each
    of them makes on its window, in order, when it is invoked with the
    given arguments. *)
Record reentry : Type := {
  in_prepare_resize : wlt_widget -> Z -> Z -> list api_call;
  in_resize : wlt_widget -> wlt_rect -> list api_call;
  in_redraw : wlt_widget -> list api_call
}.



(** Callbacks that make no call on their window. *)
Definition no_reentry : reentry :=
  {| in_prepare_resize := fun _ _ _ => [];
     in_resize := fun _ _ => [];
     in_redraw := fun _ => [] |}.

Module Reentrant.

Section Callbacks.

Variable re : reentry.
Variable env : sys_env.

(** The calls a callback makes, run when the callback runs. *)
Definition call_back (l : list api_call) : M wstate unit :=
  shl_dlist_for_each l (api_step env).

Definition wlt_window_do_redraw (oldw oldh : Z) : M wstate unit :=
  wnd <- get_wnd ;;
  let alloc := {| rect_x := 0; rect_y := 0;
                  rect_width := width (buffer wnd);
                  rect_height := height (buffer wnd) |} in
  shl_dlist_for_each (widget_list wnd) (fun widget =>
    when (negb (is_null (resize_cb widget)))
      (emit (Cb_resize (resize_cb widget) (widget_addr widget) alloc
               (widget_data widget)) ;;
       call_back (in_resize re widget alloc))) ;;
  emit (Ev_memset (data (buffer wnd))
          (u32 (stride (buffer wnd) * height (buffer wnd)))) ;;
  modify_wnd (set_skip_damage true) ;;
  shl_dlist_for_each (widget_list wnd) (fun widget =>
    when (negb (is_null (redraw_cb widget)))
      (emit (Cb_redraw (redraw_cb widget) (widget_addr widget)
               (widget_data widget)) ;;
       call_back (in_redraw re widget))) ;;
  modify_wnd (set_skip_damage false) ;;
  wnd <- get_wnd ;;
  when (negb (buffer_attached wnd))
    (modify_wnd (set_buffer_attached true) ;;
     let x := if negb (Z.land (resize_edges wnd)
                         WL_SHELL_SURFACE_RESIZE_LEFT =? 0)
              then u32 (oldw - width (buffer wnd)) else 0 in
     let y := if negb (Z.land (resize_edges wnd)
                         WL_SHELL_SURFACE_RESIZE_TOP =? 0)
              then u32 (oldh - height (buffer wnd)) else 0 in
     emit (Ev_surface_attach (w_surface wnd) (w_buffer wnd) (s32 x) (s32 y)) ;;
     modify_wnd (set_resize_edges 0)) ;;
  emit (Ev_surface_damage (w_surface wnd) 0 0
          (s32 (width (buffer wnd))) (s32 (height (buffer wnd)))).

Fixpoint prepare_resize (l : list wlt_widget) (w h : Z) : M wstate (Z * Z) :=
  match l with
  | [] => ret (w, h)
  | widget :: rest =>
      match prepare_resize_cb widget with
      | Some cb =>
          emit (Cb_prepare_resize (widget_addr widget) w h
                  (widget_data widget)) ;;
          call_back (in_prepare_resize re widget w h) ;;
          prepare_resize rest (u32 (fst (cb w h))) (u32 (snd (cb w h)))
      | None => prepare_resize rest w h
      end
  end.

Definition resize_window (w h : Z) : M wstate Z :=
  emit (Ev_resize_window w h) ;;
  if is_null w || is_null h then ret (- EINVAL)
  else
    wnd <- get_wnd ;;
    adj <- prepare_resize (widget_list wnd) w h ;;
    let w := fst adj in
    let h := snd adj in
    if (w =? width (buffer wnd)) && (h =? height (buffer wnd)) then ret 0
    else
      let oldw := width (buffer wnd) in
      let oldh := height (buffer wnd) in
      let nsize := u32 (u32 (w * h) * 4) in
      alloc <-
        (if pool_fits (pool wnd) nsize then
           let old_buffer := w_buffer wnd in
           emit (Ev_create_buffer (pool_handle (pool wnd)) 0 w h
                   (u32 (w * 4)) WL_SHM_FORMAT_ARGB8888) ;;
           modify_wnd (set_w_buffer (env_create_buffer env)) ;;
           if is_null (env_create_buffer env) then
             modify_wnd (set_w_buffer old_buffer) ;;
             ret (inl (- ENOMEM))
           else ret (inr (old_buffer, None))
         else
           let old_pool := pool wnd in
           emit (Ev_pool_new nsize) ;;
           let created := wlt_pool_new env nsize in
           if negb (fst created =? 0) then
             modify_wnd (set_pool old_pool) ;;
             ret (inl (fst created))
           else
             modify_wnd (set_pool (snd created)) ;;
             let old_buffer := w_buffer wnd in
             emit (Ev_create_buffer (pool_handle (snd created)) 0 w h
                     (u32 (w * 4)) WL_SHM_FORMAT_ARGB8888) ;;
             modify_wnd (set_w_buffer (env_create_buffer env)) ;;
             if is_null (env_create_buffer env) then
               modify_wnd (set_w_buffer old_buffer) ;;
               free_pool (snd created) ;;
               modify_wnd (set_pool old_pool) ;;
               ret (inl (- ENOMEM))
             else ret (inr (old_buffer, old_pool))) ;;
      match alloc with
      | inl err => ret err
      | inr (old_buffer, old_pool) =>
          wnd <- get_wnd ;;
          modify_wnd (set_buffer {| data := pool_base (pool wnd);
                                    width := w; height := h;
                                    stride := u32 (w * 4) |}) ;;
          modify_wnd (set_buffer_attached false) ;;
          wlt_window_do_redraw oldw oldh ;;
          when (negb (is_null old_buffer)) (emit (Ev_buffer_destroy old_buffer)) ;;
          free_pool old_pool ;;
          ret 0
      end.

Definition do_frame : M wstate unit :=
  modify_wnd (set_idle_pending false) ;;
  unregister_idle Idle_frame ;;
  wnd <- get_wnd ;;
  when (need_resize wnd)
    (modify_wnd (set_need_resize false) ;;
     modify_wnd (set_need_redraw false) ;;
     resize_window (new_width wnd) (new_height wnd) ;;
     ret tt) ;;
  wnd <- get_wnd ;;
  when (need_redraw wnd)
    (modify_wnd (set_need_redraw false) ;;
     wlt_window_do_redraw (width (buffer wnd)) (height (buffer wnd))).

End Callbacks.

End Reentrant.

(** ** Sample objects for the closed examples *)

Definition sample_env : sys_env :=
  {| env_runtime_dir := true; env_malloc_pool := true;
     env_malloc_name := true; env_mkostemp := 5; env_ftruncate := 0;
     env_mmap := 8192; env_shm_create_pool := 300;
     env_create_buffer := 400; env_surface_frame := 500 |}.

(** The same system, but the compositor connection fails to create a
    buffer. *)
Definition sample_env_no_buffer : sys_env :=
  {| env_runtime_dir := true; env_malloc_pool := true;
     env_malloc_name := true; env_mkostemp := 5; env_ftruncate := 0;
     env_mmap := 8192; env_shm_create_pool := 300;
     env_create_buffer := NULL; env_surface_frame := 500 |}.

Definition sample_widget : wlt_widget :=
  {| widget_addr := 900; widget_data := 901; redraw_cb := 11;
     destroy_cb := 0; prepare_resize_cb := None; resize_cb := 12;
     pointer_enter_cb := 0; pointer_leave_cb := 13; pointer_motion_cb := 0;
     pointer_button_cb := 0; keyboard_cb := 14 |}.

(** A window with a committed 100x100 buffer in a pool of 40000 bytes. *)
Definition sample_window : wlt_window :=
  {| wnd_addr := 1000; wnd_data := 7; close_cb := 77;
     close_pending := false;
     pool := Some {| w_pool := 300; size := 40000; pool_data := 4096 |};
     w_surface := 50; w_buffer := 399; buffer_attached := true;
     skip_damage := false; need_resize := false; need_redraw := false;
     need_frame := false; idle_pending := false; new_width := 0;
     new_height := 0; resize_edges := 0;
     buffer := {| data := 4096; width := 100; height := 100; stride := 400 |};
     w_frame := NULL; widget_list := [sample_widget] |}.

Definition sample_state : wstate :=
  {| st_wnd := sample_window; st_idlers := [] |}.

(** Shift and Control held, nothing else. *)
Definition sample_xkb : xkb_state_obj :=
  {| xkb_mods := (5, 0, 0, 0);
     xkb_mod_active := fun _ name =>
       if (name =? XKB_MOD_NAME_SHIFT)%string
          || (name =? XKB_MOD_NAME_CTRL)%string then 1 else 0;
     xkb_syms := fun _ code => [code] |}.

Definition sample_display : wlt_display :=
  {| state := STATE_RUNNING; window_list := [sample_window]; w_comp := 1;
     w_seat := 2; w_shell := 3; w_shm := 4; last_serial := 0;
     pointer_enter_serial := 0; w_pointer := 5; pointer_focus := NULL;
     w_keyboard := 6; xkb_state := Some sample_xkb;
     keyboard_focus := 1000; dp_fd := 3 |}.





(** * Properties *)

(** ** Proof helpers *)

Ltac case_if :=
  match goal with
  | |- context [if ?b then _ else _] =>
      let E := fresh "E" in destruct b eqn:E
  end.

Ltac bool_hyps :=
  repeat match goal with
  | H : (_ =? _) = true |- _ => apply Z.eqb_eq in H
  | H : (_ =? _) = false |- _ => apply Z.eqb_neq in H
  | H : (_ >? _) = true |- _ => apply Z.gtb_lt in H
  | H : (_ >? _) = false |- _ => rewrite Z.gtb_ltb, Z.ltb_ge in H
  | H : (_ >=? _) = true |- _ => rewrite Z.geb_leb, Z.leb_le in H
  | H : (_ >=? _) = false |- _ => rewrite Z.geb_leb, Z.leb_gt in H
  | H : (_ <? _) = true |- _ => apply Z.ltb_lt in H
  | H : (_ <? _) = false |- _ => apply Z.ltb_ge in H
  | H : (_ <=? _) = true |- _ => apply Z.leb_le in H
  | H : (_ <=? _) = false |- _ => apply Z.leb_gt in H
  | H : (_ && _) = true |- _ => apply andb_true_iff in H; destruct H
  | H : (_ || _) = false |- _ => apply orb_false_iff in H; destruct H
  | H : negb _ = true |- _ => apply negb_true_iff in H
  | H : negb _ = false |- _ => apply negb_false_iff in H
  | H : (_ =? _)%string = true |- _ => apply String.eqb_eq in H
  | H : (_ =? _)%string = false |- _ => apply String.eqb_neq in H
  end.

Lemma bind_run {S A B : Type} (m : M S A) (k : A -> M S B) (s : S) :
  bind m k s =
  (result (k (result (m s)) (final (m s))),
   final (k (result (m s)) (final (m s))),
   log (m s) ++ log (k (result (m s)) (final (m s)))).
Proof.
  unfold bind, result, final, log.
  destruct (m s) as [[a s1] l1]; simpl.
  destruct (k a s1) as [[b s2] l2]; reflexivity.
Qed.

Lemma final_bind {S A B : Type} (m : M S A) (k : A -> M S B) (s : S) :
  final (bind m k s) = final (k (result (m s)) (final (m s))).
Proof. rewrite bind_run. reflexivity. Qed.



Lemma final_ret {S A : Type} (a : A) (s : S) : final (ret a s) = s.
Proof. reflexivity. Qed.



(** ** Readiness state machine *)

Lemma all_bound_holds disp :
  all_bound disp = true <-> forall c, holds c disp.
Proof.
  unfold all_bound, holds, is_null, NULL; split.
  - intros H c. bool_hyps. destruct c; simpl; assumption.
  - intros H.
    pose proof (H Ready_comp); pose proof (H Ready_seat);
    pose proof (H Ready_shell); pose proof (H Ready_shm);
    pose proof (H Ready_pointer); pose proof (H Ready_keyboard).
    simpl in *.
    repeat (apply andb_true_iff; split); apply negb_true_iff, Z.eqb_neq;
      assumption.
Qed.

Lemma check_ready_eq disp :
  check_ready disp =
  if state disp >? STATE_INIT then (tt, disp, [])
  else if all_bound disp
       then (tt, set_state STATE_RUNNING disp,
             [Ev_load_cursors; Ev_hook_call WLT_DISPLAY_READY])
       else (tt, disp, []).
Proof.
  unfold check_ready, all_bound, bind, get, modify, emit, ret; simpl.
  destruct (state disp >? STATE_INIT); [reflexivity|].
  case_if; reflexivity.
Qed.

Section Readiness.

Variables EV_READABLE EV_WRITEABLE EV_HUP EV_ERR : Z.

#[local] Abbreviation step := (dp_step EV_READABLE EV_WRITEABLE EV_HUP EV_ERR).
#[local] Abbreviation run := (dp_run EV_READABLE EV_WRITEABLE EV_HUP EV_ERR).
#[local] Abbreviation hup := (is_hup EV_HUP EV_ERR).

Ltac run_handler :=
  unfold dp_step, is_hup, dp_global, seat_capabilities, dp_event, when, bind, get,
    modify, emit, ret;
  simpl;
  repeat (rewrite check_ready_eq || case_if);
  unfold final, log, result, ready_count, ready_inv, all_bound, is_null,
    holds, delivers, STATE_INIT, STATE_RUNNING, STATE_HUP, NULL in *;
  simpl in *.

Lemma step_inv i disp n :
  ready_inv disp n ->
  ready_inv (final (step i disp)) (n + ready_count (log (step i disp))).
Proof.
  intros H. destruct i; run_handler; bool_hyps;
    intuition (try congruence; try lia).
Qed.

Lemma step_holds i c disp :
  holds c (final (step i disp)) <-> holds c disp \/ delivers i c.
Proof.
  destruct i, c; run_handler; bool_hyps; subst;
    intuition (try congruence; try lia; try discriminate).
Qed.

Lemma step_no_hup i disp :
  ~ hup i -> state disp <> STATE_HUP ->
  state (final (step i disp)) <> STATE_HUP.
Proof.
  destruct i; run_handler; bool_hyps; intuition (try congruence; try lia).
Qed.

Lemma ready_count_app l1 l2 :
  ready_count (l1 ++ l2) = (ready_count l1 + ready_count l2)%nat.
Proof. unfold ready_count. rewrite filter_app, length_app. reflexivity. Qed.

Lemma run_cons i evs disp :
  run (i :: evs) disp =
  (tt, final (run evs (final (step i disp))),
   log (step i disp) ++ log (run evs (final (step i disp)))).
Proof.
  unfold dp_run; simpl. rewrite bind_run.
  f_equal. f_equal.
  destruct (result _); reflexivity.
Qed.

Lemma run_inv evs : forall disp n,
  ready_inv disp n ->
  ready_inv (final (run evs disp)) (n + ready_count (log (run evs disp))).
Proof.
  induction evs as [|i evs IH]; intros disp n H.
  - simpl. rewrite Nat.add_0_r. exact H.
  - rewrite run_cons. unfold final at 1, log at 1; simpl.
    rewrite ready_count_app, Nat.add_assoc.
    apply IH, step_inv, H.
Qed.

Lemma run_holds evs c : forall disp,
  holds c (final (run evs disp)) <->
  holds c disp \/ exists i, In i evs /\ delivers i c.
Proof.
  induction evs as [|i evs IH]; intros disp.
  - simpl. split; [auto|]. intros [H|[i [[] _]]]; exact H.
  - rewrite run_cons. unfold final at 1; simpl.
    rewrite IH, step_holds. split.
    + intros [[H|H]|[j [Hj Hd]]]; eauto.
    + intros [H|[j [[->|Hj] Hd]]]; eauto.
Qed.

Lemma run_no_hup evs : forall disp,
  (forall i, In i evs -> ~ hup i) -> state disp <> STATE_HUP ->
  state (final (run evs disp)) <> STATE_HUP.
Proof.
  induction evs as [|i evs IH]; intros disp Hn Hs; [exact Hs|].
  rewrite run_cons. unfold final at 1; simpl.
  apply IH; [intros j Hj; apply Hn; right; exact Hj|].
  apply step_no_hup; [apply Hn; left; reflexivity | exact Hs].
Qed.

Lemma new_display_inv fd : ready_inv (wlt_display_new fd) 0.
Proof. left. repeat split. Qed.

Lemma new_display_holds fd c : ~ holds c (wlt_display_new fd).
Proof. intros H; apply H; destruct c; reflexivity. Qed.

Lemma arrival_delivers h c c' :
  h c <> NULL -> (delivers (arrival h c) c' <-> c = c').
Proof.
  intros Hh. destruct c, c'; simpl; unfold NULL in *;
    intuition (try congruence; try discriminate; try lia).
Qed.

Lemma arrival_no_hup h c : ~ hup (arrival h c).
Proof. destruct c; simpl; auto. Qed.

Lemma ready_cond_eq_dec (a b : ready_cond) : {a = b} + {a <> b}.
Proof. decide equality. Qed.

Lemma short_order_misses (l : list ready_cond) :
  NoDup l -> (List.length l < 6)%nat -> exists c, ~ In c l.
Proof.
  intros Hnd Hlen.
  destruct (in_dec ready_cond_eq_dec Ready_comp l); [|eauto].
  destruct (in_dec ready_cond_eq_dec Ready_seat l); [|eauto].
  destruct (in_dec ready_cond_eq_dec Ready_shell l); [|eauto].
  destruct (in_dec ready_cond_eq_dec Ready_shm l); [|eauto].
  destruct (in_dec ready_cond_eq_dec Ready_pointer l); [|eauto].
  destruct (in_dec ready_cond_eq_dec Ready_keyboard l); [|eauto].
  exfalso.
  assert (Hincl : incl all_ready_conds l).
  { intros c Hc. destruct c; assumption. }
  assert (Hall : NoDup all_ready_conds).
  { unfold all_ready_conds.
    repeat (constructor; [simpl; intuition discriminate|]). constructor. }
  pose proof (NoDup_incl_length Hall Hincl) as Hle. simpl in Hle. lia.
Qed.

(** Without a hangup, the connection is RUNNING, with READY broadcast once,
    exactly when every condition was delivered, and INIT with no broadcast
    otherwise. *)
Lemma run_ready_iff fd evs :
  (forall i, In i evs -> ~ hup i) ->
  let r := run evs (wlt_display_new fd) in
  ((forall c, exists i, In i evs /\ delivers i c) ->
   state (final r) = STATE_RUNNING /\ ready_count (log r) = 1%nat) /\
  ((exists c, forall i, In i evs -> ~ delivers i c) ->
   state (final r) = STATE_INIT /\ ready_count (log r) = 0%nat).
Proof.
  intros Hn r.
  pose proof (run_inv evs _ _ (new_display_inv fd)) as Hinv.
  pose proof (run_no_hup evs _ Hn (ltac:(discriminate) :
                state (wlt_display_new fd) <> STATE_HUP)) as Hh.
  fold r in Hinv, Hh. simpl in Hinv. split.
  - intros Hall.
    assert (Hb : all_bound (final r) = true).
    { apply all_bound_holds. intros c. apply run_holds. right. apply Hall. }
    destruct Hinv as [[_ [_ H]]|[[H1 [H2 _]]|[H _]]]; try congruence; auto.
  - intros [c Hc].
    assert (Hb : all_bound (final r) <> true).
    { intros Hb. rewrite all_bound_holds in Hb. specialize (Hb c).
      apply run_holds in Hb. destruct Hb as [Hb|[i [Hi Hd]]].
      - exact (new_display_holds fd c Hb).
      - exact (Hc i Hi Hd). }
    destruct Hinv as [[H1 [H2 _]]|[[_ [_ H]]|[H _]]]; try congruence; auto.
Qed.

End Readiness.

(** C1.  The connection is RUNNING only when compositor, seat, shell, shm,
    pointer and keyboard are all bound; over any sequence of inputs READY is
    broadcast at most once, and exactly once whenever the state is RUNNING;
    without a hangup the state is RUNNING (READY broadcast once) exactly when
    each of the six conditions has been delivered, in whatever order and
    mixed with whatever other inputs; in particular, for each of the 720
    orders of the six arrivals, the connection is still INIT with no
    broadcast after any proper prefix and RUNNING with one broadcast after
    the last arrival. *)
Theorem display_ready_exactly_once (EV_READABLE EV_WRITEABLE EV_HUP EV_ERR fd : Z) :
  (forall evs,
     let r := dp_run EV_READABLE EV_WRITEABLE EV_HUP EV_ERR evs
                (wlt_display_new fd) in
     (state (final r) = STATE_RUNNING -> forall c, holds c (final r)) /\
     (ready_count (log r) <= 1)%nat /\
     (state (final r) = STATE_RUNNING -> ready_count (log r) = 1%nat)) /\
  (forall evs,
     (forall i, In i evs -> ~ is_hup EV_HUP EV_ERR i) ->
     let r := dp_run EV_READABLE EV_WRITEABLE EV_HUP EV_ERR evs
                (wlt_display_new fd) in
     ((forall c, exists i, In i evs /\ delivers i c) ->
      state (final r) = STATE_RUNNING /\ ready_count (log r) = 1%nat) /\
     ((exists c, forall i, In i evs -> ~ delivers i c) ->
      state (final r) = STATE_INIT /\ ready_count (log r) = 0%nat)) /\
  (forall (h : ready_cond -> Z) (order : list ready_cond) (k : nat),
     (forall c, h c <> NULL) ->
     Permutation order all_ready_conds ->
     let r := dp_run EV_READABLE EV_WRITEABLE EV_HUP EV_ERR
                (map (arrival h) (firstn k order)) (wlt_display_new fd) in
     if (k <? 6)%nat
     then state (final r) = STATE_INIT /\ ready_count (log r) = 0%nat
     else state (final r) = STATE_RUNNING /\ ready_count (log r) = 1%nat).
Proof.
  split; [|split].
  - intros evs r.
    pose proof (run_inv EV_READABLE EV_WRITEABLE EV_HUP EV_ERR evs _ _
                  (new_display_inv fd)) as Hinv.
    fold r in Hinv. simpl in Hinv.
    unfold ready_inv, STATE_RUNNING, STATE_INIT, STATE_HUP in *.
    destruct Hinv as [[H1 [H2 H3]]|[[H1 [H2 H3]]|[H1 H2]]].
    + repeat split; intros; try congruence; lia.
    + repeat split; intros; try lia.
      apply all_bound_holds; exact H3.
    + repeat split; intros; try congruence; lia.
  - intros evs Hn. apply run_ready_iff. exact Hn.
  - intros h order k Hh Hperm r.
    assert (Hn : forall i, In i (map (arrival h) (firstn k order)) ->
                 ~ is_hup EV_HUP EV_ERR i).
    { intros i Hi. apply in_map_iff in Hi. destruct Hi as [c [<- _]].
      apply arrival_no_hup. }
    pose proof (run_ready_iff EV_READABLE EV_WRITEABLE EV_HUP EV_ERR fd _ Hn)
      as [Hall Hmiss].
    fold r in Hall, Hmiss.
    pose proof (Permutation_length Hperm) as Hlen. simpl in Hlen.
    destruct (k <? 6)%nat eqn:Hk.
    + apply Nat.ltb_lt in Hk. apply Hmiss.
      destruct (short_order_misses (firstn k order)) as [c Hc].
      * assert (Hnd : NoDup order).
        { apply (Permutation_NoDup (Permutation_sym Hperm)).
          unfold all_ready_conds.
          repeat (constructor; [simpl; intuition discriminate|]).
          constructor. }
        rewrite <- (firstn_skipn k order) in Hnd.
        apply NoDup_app_remove_r in Hnd. exact Hnd.
      * rewrite length_firstn. lia.
      * exists c. intros i Hi Hd.
        apply in_map_iff in Hi. destruct Hi as [c' [<- Hc']].
        apply arrival_delivers in Hd; [|apply Hh]. subst c'. auto.
    + apply Nat.ltb_ge in Hk. apply Hall. intros c.
      exists (arrival h c). split.
      * apply in_map. rewrite firstn_all2 by lia.
        apply (Permutation_in c (Permutation_sym Hperm)).
        destruct c; simpl; auto 10.
      * apply arrival_delivers; [apply Hh | reflexivity].
Qed.

Lemma display_ready_exactly_once_witness :
  let r := dp_run 1 2 4 8
             (map (arrival (fun _ => 9)) (rev all_ready_conds))
             (wlt_display_new 3) in
  state (final r) = STATE_RUNNING /\ ready_count (log r) = 1%nat.
Proof.
  apply (proj2 (proj2 (display_ready_exactly_once 1 2 4 8 3))
           (fun _ => 9) (rev all_ready_conds) 6%nat).
  - intros c; discriminate.
  - apply Permutation_sym, Permutation_rev.
Defined.

(** ** Pointer leave *)

(** C9, as stated, fails: a leave with no focused window still records the
    event's serial. *)
Lemma pointer_leave_no_focus_changes_serial :
  pointer_focus (wlt_display_new 3) = NULL /\
  last_serial (final (pointer_leave 7 0 (wlt_display_new 3)))
    <> last_serial (wlt_display_new 3).
Proof. split; [reflexivity | discriminate]. Qed.

(** C9, amended.  A pointer-leave arriving when no window holds pointer
    focus invokes no callback and changes nothing in the connection state
    but the tracked last serial, which becomes the serial of the event;
    pointer focus stays empty. *)
Theorem pointer_leave_no_focus (disp : wlt_display) (serial surface : Z) :
  pointer_focus disp = NULL ->
  log (pointer_leave serial surface disp) = [] /\
  final (pointer_leave serial surface disp) = set_last_serial serial disp /\
  pointer_focus (final (pointer_leave serial surface disp)) = NULL.
Proof.
  intros H. unfold pointer_leave, bind, get, modify, ret; simpl.
  rewrite H. simpl. repeat split.
  destruct disp; simpl in *; subst; reflexivity.
Qed.

Lemma pointer_leave_no_focus_witness :
  log (pointer_leave 7 0 (wlt_display_new 3)) = [] /\
  final (pointer_leave 7 0 (wlt_display_new 3))
    = set_last_serial 7 (wlt_display_new 3) /\
  pointer_focus (final (pointer_leave 7 0 (wlt_display_new 3))) = NULL.
Proof. apply (pointer_leave_no_focus (wlt_display_new 3) 7 0). reflexivity. Defined.

(** ** Modifier mask *)

Lemma for_each_when_emit {S A : Type} (c : A -> bool) (e : A -> event)
    (l : list A) (s : S) :
  shl_dlist_for_each l (fun a => when (c a) (emit (e a))) s
  = (tt, s, map e (filter c l)).
Proof.
  induction l as [|a l IH]; simpl; [reflexivity|].
  unfold bind, when at 1. destruct (c a); simpl; rewrite IH; reflexivity.
Qed.

Lemma testbit_one (k : Z) : Z.testbit 1 k = (k =? 0).
Proof. destruct k as [|p|p]; reflexivity. Qed.

Lemma testbit_tsm_bit (b n : Z) :
  0 <= n -> Z.testbit (tsm_bit b) n = (n =? b).
Proof.
  intros Hn. unfold tsm_bit. rewrite Z.shiftl_spec by exact Hn.
  rewrite testbit_one.
  destruct (Z.eqb_spec (n - b) 0), (Z.eqb_spec n b); try reflexivity; lia.
Qed.

(** Bit [n] of the mask is set exactly when [n] is the bit of an active
    modifier. *)
Lemma modmask_testbit
    (bit_shift bit_lock bit_control bit_mod1 bit_mod4 : Z)
    (st : xkb_state_obj) (n : Z) :
  0 <= n ->
  Z.testbit
    (get_effective_modmask (tsm_bit bit_shift) (tsm_bit bit_lock)
       (tsm_bit bit_control) (tsm_bit bit_mod1) (tsm_bit bit_mod4) st) n
  = (mod_active st XKB_MOD_NAME_SHIFT && (n =? bit_shift))
    || (mod_active st XKB_MOD_NAME_CAPS && (n =? bit_lock))
    || (mod_active st XKB_MOD_NAME_CTRL && (n =? bit_control))
    || (mod_active st XKB_MOD_NAME_ALT && (n =? bit_mod1))
    || (mod_active st XKB_MOD_NAME_LOGO && (n =? bit_mod4)).
Proof.
  intros Hn. unfold get_effective_modmask, mod_active.
  destruct (negb (xkb_state_mod_name_is_active st XKB_MOD_NAME_SHIFT =? 0));
  destruct (negb (xkb_state_mod_name_is_active st XKB_MOD_NAME_CAPS =? 0));
  destruct (negb (xkb_state_mod_name_is_active st XKB_MOD_NAME_CTRL =? 0));
  destruct (negb (xkb_state_mod_name_is_active st XKB_MOD_NAME_ALT =? 0));
  destruct (negb (xkb_state_mod_name_is_active st XKB_MOD_NAME_LOGO =? 0));
  cbv beta iota zeta;
  repeat rewrite Z.lor_spec; repeat rewrite (testbit_tsm_bit _ n Hn);
  rewrite ?Z.testbit_0_l; simpl;
  rewrite ?orb_false_r; reflexivity.
Qed.

Ltac modifier_cases st :=
  destruct (mod_active st XKB_MOD_NAME_SHIFT),
    (mod_active st XKB_MOD_NAME_CAPS), (mod_active st XKB_MOD_NAME_CTRL),
    (mod_active st XKB_MOD_NAME_ALT), (mod_active st XKB_MOD_NAME_LOGO);
  reflexivity.

(** C8.  With the five modifier masks on pairwise distinct bits, the mask
    [keyboard_key] hands to every keyboard callback of the focused window is
    [get_effective_modmask] of the current xkb state; each of its five bits
    is set exactly when the corresponding modifier is active, whatever the
    other four are; no other bit is set; and when exactly Shift and Control
    are active it is the bitwise OR of the Shift bit and the Control bit. *)
Theorem keyboard_key_modmask
    (bit_shift bit_lock bit_control bit_mod1 bit_mod4 : Z)
    (disp : wlt_display) (st : xkb_state_obj) (wnd : wlt_window)
    (serial time key state_w : Z) :
  Forall (fun b => 0 <= b)
    [bit_shift; bit_lock; bit_control; bit_mod1; bit_mod4] ->
  NoDup [bit_shift; bit_lock; bit_control; bit_mod1; bit_mod4] ->
  xkb_state disp = Some st ->
  keyboard_focus disp <> NULL ->
  window_at disp (keyboard_focus disp) = Some wnd ->
  let mask :=
    get_effective_modmask (tsm_bit bit_shift) (tsm_bit bit_lock)
      (tsm_bit bit_control) (tsm_bit bit_mod1) (tsm_bit bit_mod4) st in
  (exists sym,
     log (keyboard_key (tsm_bit bit_shift) (tsm_bit bit_lock)
            (tsm_bit bit_control) (tsm_bit bit_mod1) (tsm_bit bit_mod4)
            serial time key state_w disp)
     = map (fun widget =>
              Cb_keyboard (keyboard_cb widget) (widget_addr widget) mask sym
                state_w (widget_data widget))
         (filter (fun widget => negb (is_null (keyboard_cb widget)))
            (widget_list wnd))) /\
  Z.testbit mask bit_shift = mod_active st XKB_MOD_NAME_SHIFT /\
  Z.testbit mask bit_lock = mod_active st XKB_MOD_NAME_CAPS /\
  Z.testbit mask bit_control = mod_active st XKB_MOD_NAME_CTRL /\
  Z.testbit mask bit_mod1 = mod_active st XKB_MOD_NAME_ALT /\
  Z.testbit mask bit_mod4 = mod_active st XKB_MOD_NAME_LOGO /\
  (forall n,
     ~ In n [bit_shift; bit_lock; bit_control; bit_mod1; bit_mod4] ->
     Z.testbit mask n = false) /\
  (mod_active st XKB_MOD_NAME_SHIFT = true ->
   mod_active st XKB_MOD_NAME_CTRL = true ->
   mod_active st XKB_MOD_NAME_CAPS = false ->
   mod_active st XKB_MOD_NAME_ALT = false ->
   mod_active st XKB_MOD_NAME_LOGO = false ->
   mask = Z.lor (tsm_bit bit_shift) (tsm_bit bit_control)).
Proof.
  intros Hpos Hnd Hst Hfoc Hwnd mask.
  assert (Hbits : 0 <= bit_shift /\ 0 <= bit_lock /\ 0 <= bit_control /\
                  0 <= bit_mod1 /\ 0 <= bit_mod4).
  { repeat match goal with
           | H : Forall _ (_ :: _) |- _ => inversion H; subst; clear H
           end. auto. }
  assert (Hne : bit_shift <> bit_lock /\ bit_shift <> bit_control /\
                bit_shift <> bit_mod1 /\ bit_shift <> bit_mod4 /\
                bit_lock <> bit_control /\ bit_lock <> bit_mod1 /\
                bit_lock <> bit_mod4 /\ bit_control <> bit_mod1 /\
                bit_control <> bit_mod4 /\ bit_mod1 <> bit_mod4).
  { repeat match goal with
           | H : NoDup (_ :: _) |- _ => inversion H; subst; clear H
           end.
    simpl in *. intuition. }
  assert (Hbit : forall n, 0 <= n ->
            Z.testbit mask n
            = (mod_active st XKB_MOD_NAME_SHIFT && (n =? bit_shift))
              || (mod_active st XKB_MOD_NAME_CAPS && (n =? bit_lock))
              || (mod_active st XKB_MOD_NAME_CTRL && (n =? bit_control))
              || (mod_active st XKB_MOD_NAME_ALT && (n =? bit_mod1))
              || (mod_active st XKB_MOD_NAME_LOGO && (n =? bit_mod4))).
  { intros n Hn. apply modmask_testbit. exact Hn. }
  assert (Hself : forall b, (b =? b) = true) by (intros; apply Z.eqb_refl).
  assert (Hoff : forall a b, a <> b -> (a =? b) = false)
    by (intros; apply Z.eqb_neq; assumption).
  destruct Hbits as (Hb1 & Hb2 & Hb3 & Hb4 & Hb5).
  destruct Hne as (N1 & N2 & N3 & N4 & N5 & N6 & N7 & N8 & N9 & N10).
  split; [|repeat split].
  - unfold keyboard_key, bind, get, modify, ret; simpl.
    rewrite Hst. unfold is_null.
    destruct (Z.eqb_spec (keyboard_focus disp) 0) as [E|_];
      [exfalso; apply Hfoc; exact E|].
    eexists.
    match goal with
    | |- context [window_at disp ?p] => change (window_at disp p)
        with (window_at disp (keyboard_focus disp))
    end.
    rewrite Hwnd. unfold is_null.
    rewrite for_each_when_emit. reflexivity.
  - rewrite Hbit by assumption.
    rewrite Hself, (Hoff _ _ N1), (Hoff _ _ N2), (Hoff _ _ N3),
      (Hoff _ _ N4).
    modifier_cases st.
  - rewrite Hbit by assumption.
    rewrite Hself, (Hoff _ _ (not_eq_sym N1)), (Hoff _ _ N5), (Hoff _ _ N6),
      (Hoff _ _ N7).
    modifier_cases st.
  - rewrite Hbit by assumption.
    rewrite Hself, (Hoff _ _ (not_eq_sym N2)), (Hoff _ _ (not_eq_sym N5)),
      (Hoff _ _ N8), (Hoff _ _ N9).
    modifier_cases st.
  - rewrite Hbit by assumption.
    rewrite Hself, (Hoff _ _ (not_eq_sym N3)), (Hoff _ _ (not_eq_sym N6)),
      (Hoff _ _ (not_eq_sym N8)), (Hoff _ _ N10).
    modifier_cases st.
  - rewrite Hbit by assumption.
    rewrite Hself, (Hoff _ _ (not_eq_sym N4)), (Hoff _ _ (not_eq_sym N7)),
      (Hoff _ _ (not_eq_sym N9)), (Hoff _ _ (not_eq_sym N10)).
    modifier_cases st.
  - intros n Hn. simpl in Hn.
    destruct (Z.neg_nonneg_cases n) as [Hneg|Hn0].
    + apply Z.testbit_neg_r, Hneg.
    + rewrite Hbit by assumption.
      rewrite !Hoff by (intros ->; apply Hn; auto 10).
      rewrite !andb_false_r. reflexivity.
  - intros As Ac Al Aa Ag.
    apply Z.bits_inj'. intros n Hn.
    rewrite Hbit by assumption. rewrite As, Ac, Al, Aa, Ag.
    rewrite Z.lor_spec, !testbit_tsm_bit by assumption.
    simpl. rewrite !orb_false_r. reflexivity.
Qed.

Lemma keyboard_key_modmask_witness :
  get_effective_modmask (tsm_bit 0) (tsm_bit 1) (tsm_bit 2) (tsm_bit 3)
    (tsm_bit 6) sample_xkb
  = Z.lor (tsm_bit 0) (tsm_bit 2).
Proof.
  destruct (keyboard_key_modmask 0 1 2 3 6 sample_display sample_xkb
              sample_window 1 2 30 1) as (_ & _ & _ & _ & _ & _ & _ & H).
  - repeat constructor; lia.
  - repeat constructor; simpl; intuition discriminate.
  - reflexivity.
  - discriminate.
  - reflexivity.
  - apply H; reflexivity.
Defined.

(** ** Resize *)

Lemma prepare_resize_run (l : list wlt_widget) : forall w h st,
  prepare_resize l w h st = (adjusted_size l w h, st, prepare_log l w h).
Proof.
  induction l as [|widget l IH]; intros w h st; simpl; [reflexivity|].
  destruct (prepare_resize_cb widget) as [cb|]; [|apply IH].
  unfold bind, emit. rewrite IH. reflexivity.
Qed.

Lemma none_of_app p l1 l2 :
  none_of p (l1 ++ l2) <-> none_of p l1 /\ none_of p l2.
Proof. unfold none_of. rewrite forallb_app. apply andb_true_iff. Qed.

Lemma none_of_cons p e l :
  none_of p (e :: l) <-> p e = false /\ none_of p l.
Proof.
  unfold none_of; simpl. rewrite andb_true_iff, negb_true_iff. reflexivity.
Qed.

Lemma none_of_nil p : none_of p [].
Proof. reflexivity. Qed.

Lemma prepare_log_none p (l : list wlt_widget) :
  (forall a b c d, p (Cb_prepare_resize a b c d) = false) ->
  forall w h, none_of p (prepare_log l w h).
Proof.
  intros Hp. induction l as [|widget l IH]; intros w h; simpl.
  - apply none_of_nil.
  - destruct (prepare_resize_cb widget); [|apply IH].
    apply none_of_cons. split; [apply Hp | apply IH].
Qed.

Ltac run_monad :=
  unfold when, register_idle, unregister_idle, free_pool, get_wnd,
    modify_wnd;
  unfold bind, emit, ret, get, modify;
  simpl.

(** The early return of [resize_window] on an unchanged size. *)
Lemma resize_window_noop (env : sys_env) (st : wstate) (w h : Z) :
  w <> 0 -> h <> 0 ->
  adjusted_size (widget_list (st_wnd st)) w h = committed_size (st_wnd st) ->
  resize_window env w h st
  = (0, st, Ev_resize_window w h
            :: prepare_log (widget_list (st_wnd st)) w h).
Proof.
  intros Hw Hh Hadj.
  unfold resize_window, is_null.
  destruct (Z.eqb_spec w 0) as [|_]; [contradiction|].
  destruct (Z.eqb_spec h 0) as [|_]; [contradiction|].
  run_monad. rewrite prepare_resize_run, Hadj. unfold committed_size; simpl.
  rewrite !Z.eqb_refl. simpl. rewrite app_nil_r. reflexivity.
Qed.

(** C5.  A resize whose target, after the widgets' prepare-resize
    adjustment, equals the committed buffer size returns 0, leaves the
    window (buffer handle, pool and committed view included) as it was,
    allocates neither buffer nor pool, and invokes no resize or redraw
    callback. *)
Theorem resize_window_same_size (env : sys_env) (st : wstate) (w h : Z) :
  w <> 0 -> h <> 0 ->
  adjusted_size (widget_list (st_wnd st)) w h = committed_size (st_wnd st) ->
  let r := resize_window env w h st in
  result r = 0 /\
  final r = st /\
  buffer (st_wnd (final r)) = buffer (st_wnd st) /\
  none_of is_allocation (log r) /\
  none_of is_resize_or_redraw_cb (log r).
Proof.
  intros Hw Hh Hadj r. subst r.
  rewrite (resize_window_noop env st w h Hw Hh Hadj).
  unfold result, final, log; simpl. repeat split.
  - apply none_of_cons. split; [reflexivity|].
    apply prepare_log_none. reflexivity.
  - apply none_of_cons. split; [reflexivity|].
    apply prepare_log_none. reflexivity.
Qed.

Lemma resize_window_same_size_witness :
  let r := resize_window sample_env 100 100 sample_state in
  result r = 0 /\
  final r = sample_state /\
  buffer (st_wnd (final r)) = buffer sample_window /\
  none_of is_allocation (log r) /\
  none_of is_resize_or_redraw_cb (log r).
Proof.
  apply (resize_window_same_size sample_env sample_state 100 100).
  - discriminate.
  - discriminate.
  - reflexivity.
Defined.

Lemma for_each_when_emit_run {S A : Type} (c : A -> bool) (e : A -> event)
    (l : list A) (s : S) :
  shl_dlist_for_each l
    (fun a => if c a then (fun s0 => (tt, s0, [e a]))
              else (fun s0 => (tt, s0, []))) s
  = (tt, s, map e (filter c l)).
Proof. apply (for_each_when_emit c e l s). Qed.

Lemma resize_runs_app l1 l2 :
  resize_runs (l1 ++ l2) = resize_runs l1 ++ resize_runs l2.
Proof. unfold resize_runs. apply flat_map_app. Qed.

Lemma resize_runs_cons e l :
  resize_runs (e :: l) = resize_run_of e ++ resize_runs l.
Proof. reflexivity. Qed.

Lemma resize_runs_map_nil {A : Type} (e : A -> event) (l : list A) :
  (forall a, resize_run_of (e a) = []) -> resize_runs (map e l) = [].
Proof.
  intros He. induction l as [|a l IH]; [reflexivity|].
  simpl. rewrite resize_runs_cons, He, IH. reflexivity.
Qed.

Lemma prepare_log_no_runs (l : list wlt_widget) : forall w h,
  resize_runs (prepare_log l w h) = [].
Proof.
  induction l as [|widget l IH]; intros w h; simpl; [reflexivity|].
  destruct (prepare_resize_cb widget); [|apply IH].
  rewrite resize_runs_cons. simpl. apply IH.
Qed.

Ltac count_runs :=
  repeat first
    [ rewrite resize_runs_app
    | rewrite resize_runs_cons
    | rewrite resize_runs_map_nil by reflexivity
    | rewrite prepare_log_no_runs ];
  cbn [resize_run_of app];
  change (resize_runs []) with (@nil (Z * Z));
  cbn [app].

(** What a redraw leaves of the window: only [skip_damage],
    [buffer_attached] and [resize_edges] are written. *)
Lemma do_redraw_run (oldw oldh : Z) (st : wstate) :
  exists wnd' l,
    wlt_window_do_redraw oldw oldh st
    = (tt, {| st_wnd := wnd'; st_idlers := st_idlers st |}, l) /\
    buffer wnd' = buffer (st_wnd st) /\
    pool wnd' = pool (st_wnd st) /\
    w_buffer wnd' = w_buffer (st_wnd st) /\
    need_resize wnd' = need_resize (st_wnd st) /\
    need_redraw wnd' = need_redraw (st_wnd st) /\
    new_width wnd' = new_width (st_wnd st) /\
    new_height wnd' = new_height (st_wnd st) /\
    widget_list wnd' = widget_list (st_wnd st) /\
    resize_runs l = [].
Proof.
  destruct st as [wnd idl].
  unfold wlt_window_do_redraw. run_monad.
  repeat (rewrite for_each_when_emit_run; simpl).
  destruct (buffer_attached wnd); simpl;
    (eexists; eexists; split; [reflexivity|]); simpl;
    repeat split; count_runs; reflexivity.
Qed.

Lemma wlt_pool_new_error (env : sys_env) (sz : Z) :
  fst (wlt_pool_new env sz) <> 0 -> fst (wlt_pool_new env sz) < 0.
Proof.
  unfold wlt_pool_new, EFAULT, ENOMEM.
  repeat case_if; simpl; intros H; try lia.
Qed.

Ltac redraw_step :=
  match goal with
  | |- context [wlt_window_do_redraw ?a ?b ?s] =>
      let wnd' := fresh "wnd'" in
      let lr := fresh "lr" in
      let Hrun := fresh "Hrun" in
      destruct (do_redraw_run a b s)
        as (wnd' & lr & Hrun & ? & ? & ? & ? & ? & ? & ? & ? & ?);
      rewrite Hrun
  end.

Ltac case_opt :=
  match goal with
  | |- context [match ?o with Some _ => _ | None => _ end] =>
      let E := fresh "E" in destruct o eqn:E
  end.

Ltac run_resize :=
  unfold resize_window, committed_size, is_null, NULL, ENOMEM, EINVAL;
  run_monad;
  repeat (first [rewrite prepare_resize_run | case_if | case_opt
                | redraw_step]; simpl).

(** Every run of [resize_window] is one entry of [resize_runs], and the
    event loop's registry is not touched. *)
Lemma resize_window_one_run (env : sys_env) (st : wstate) (w h : Z) :
  resize_runs (log (resize_window env w h st)) = [(w, h)] /\
  st_idlers (final (resize_window env w h st)) = st_idlers st.
Proof.
  destruct st as [wnd idl]. run_resize;
    unfold log, final; simpl; (split; [|reflexivity]);
    count_runs; try reflexivity;
    repeat match goal with H : resize_runs _ = [] |- _ => rewrite H end;
    reflexivity.
Qed.

(** C3.  Whenever [resize_window] returns non-zero, the value is negative
    and the window is exactly as before the call; and a failure to create
    the buffer, or to allocate the new pool when one is needed, makes it
    return such a value: the buffer handle, the pool and the committed view
    are untouched, and no resize or redraw callback has run. *)
Theorem resize_window_failure_keeps_state
    (env : sys_env) (st : wstate) (w h : Z) :
  let r := resize_window env w h st in
  let wnd := st_wnd st in
  let target := adjusted_size (widget_list wnd) w h in
  let nsize := u32 (u32 (fst target * snd target) * 4) in
  (result r <> 0 -> result r < 0 /\ final r = st) /\
  (w <> 0 -> h <> 0 -> target <> committed_size wnd ->
   env_create_buffer env = NULL \/
   (pool_fits (pool wnd) nsize = false /\
    fst (wlt_pool_new env nsize) <> 0) ->
   result r < 0 /\
   final r = st /\
   w_buffer (st_wnd (final r)) = w_buffer wnd /\
   pool (st_wnd (final r)) = pool wnd /\
   buffer (st_wnd (final r)) = buffer wnd /\
   none_of is_resize_or_redraw_cb (log r)).
Proof.
  destruct st as [wnd idl]. destruct wnd. simpl.
  pose proof (wlt_pool_new_error env) as Herr.
  assert (Hlog : none_of is_resize_or_redraw_cb (prepare_log widget_list0 w h))
    by (apply prepare_log_none; reflexivity).
  split.
  - run_resize; unfold result, final; simpl;
      intros Hret; try contradiction; bool_hyps;
      (split; [first [lia | apply Herr; assumption] | reflexivity]).
  - intros Hw Hh Hneq Hfail. unfold committed_size, NULL in Hneq, Hfail.
    simpl in Hneq.
    run_resize; unfold result, final, log; simpl; bool_hyps;
      try lia;
      try (exfalso; apply Hneq;
           destruct (adjusted_size widget_list0 w h), buffer0; simpl in *;
           congruence);
      try (exfalso; destruct Hfail as [Hf|[Hf1 Hf2]]; congruence);
      (split; [first [lia | apply Herr; assumption] | ]);
      do 4 (split; [reflexivity|]);
      rewrite ?app_nil_r;
      repeat first [apply none_of_cons; split; [reflexivity|]
                   | apply none_of_app; split; [exact Hlog|]
                   | apply none_of_nil ].
Qed.

Lemma resize_window_failure_keeps_state_witness :
  let r := resize_window sample_env_no_buffer 50 200 sample_state in
  result r < 0 /\
  final r = sample_state /\
  w_buffer (st_wnd (final r)) = w_buffer sample_window /\
  pool (st_wnd (final r)) = pool sample_window /\
  buffer (st_wnd (final r)) = buffer sample_window /\
  none_of is_resize_or_redraw_cb (log r).
Proof.
  apply (proj2 (resize_window_failure_keeps_state sample_env_no_buffer
                  sample_state 50 200)).
  - discriminate.
  - discriminate.
  - discriminate.
  - left. reflexivity.
Defined.

(** What a run of [resize_window] leaves of the scheduling state. *)
Lemma resize_window_run (env : sys_env) (st : wstate) (w h : Z) :
  exists res wnd' l,
    resize_window env w h st
    = (res, {| st_wnd := wnd'; st_idlers := st_idlers st |}, l) /\
    resize_runs l = [(w, h)] /\
    need_resize wnd' = need_resize (st_wnd st) /\
    need_redraw wnd' = need_redraw (st_wnd st) /\
    new_width wnd' = new_width (st_wnd st) /\
    new_height wnd' = new_height (st_wnd st) /\
    widget_list wnd' = widget_list (st_wnd st).
Proof.
  destruct st as [wnd idl]. run_resize;
    (eexists; eexists; eexists; split; [reflexivity|]);
    simpl in *; (split; [|repeat split; congruence]);
    count_runs; try reflexivity;
    repeat match goal with H : resize_runs _ = [] |- _ => rewrite H end;
    reflexivity.
Qed.

Ltac resize_step :=
  match goal with
  | |- context [resize_window ?env ?w ?h ?s] =>
      let res := fresh "res" in
      let wnd' := fresh "wnd'" in
      let lz := fresh "lz" in
      let Hrun := fresh "Hrun" in
      destruct (resize_window_run env s w h)
        as (res & wnd' & lz & Hrun & ? & ? & ? & ? & ? & ?);
      rewrite Hrun
  end.

(** A frame runs the resize algorithm once when a resize is pending, with
    the pending target, and not at all otherwise. *)
Lemma do_frame_runs (env : sys_env) (st : wstate) :
  resize_runs (log (do_frame env st))
  = if need_resize (st_wnd st)
    then [(new_width (st_wnd st), new_height (st_wnd st))]
    else [].
Proof.
  destruct st as [wnd idl]. unfold do_frame. run_monad.
  destruct (need_resize wnd) eqn:Hnr; simpl.
  - resize_step; simpl.
    case_if; simpl; repeat redraw_step; simpl; unfold log; simpl;
      count_runs;
      repeat match goal with
             | H : resize_runs _ = _ |- _ => rewrite H
             end; reflexivity.
  - case_if; simpl; repeat redraw_step; simpl; unfold log; simpl;
      count_runs;
      repeat match goal with
             | H : resize_runs _ = _ |- _ => rewrite H
             end; reflexivity.
Qed.

(** ** Frame scheduling *)

Lemma set_size_step (env : sys_env) (w h : Z) (st : wstate) :
  let r := wlt_window_set_size env w h st in
  if accepted (w, h)
  then need_resize (st_wnd (final r)) = true /\
       new_width (st_wnd (final r)) = w /\
       new_height (st_wnd (final r)) = h
  else final r = st.
Proof.
  destruct st as [wnd idl].
  unfold wlt_window_set_size, schedule_frame, accepted; simpl.
  destruct (is_null w || is_null h); simpl; [reflexivity|].
  run_monad. repeat (case_if; simpl); unfold final; simpl; auto.
Qed.

Lemma set_sizes_cons (env : sys_env) c calls st :
  final (set_sizes env (c :: calls) st)
  = final (set_sizes env calls
             (final (wlt_window_set_size env (fst c) (snd c) st))).
Proof.
  unfold set_sizes; simpl. rewrite bind_run. unfold final at 1; simpl.
  rewrite bind_run. unfold final at 3; simpl. reflexivity.
Qed.

Lemma set_sizes_pending (env : sys_env) (calls : list (Z * Z)) :
  forall st acc,
    pending_target (st_wnd st) acc ->
    pending_target (st_wnd (final (set_sizes env calls st)))
      (fold_left (fun acc c => if accepted c then Some c else acc) calls acc).
Proof.
  induction calls as [|c calls IH]; intros st acc H; [exact H|].
  rewrite set_sizes_cons. simpl. apply IH.
  pose proof (set_size_step env (fst c) (snd c) st) as Hstep.
  simpl in Hstep. rewrite <- surjective_pairing in Hstep.
  destruct (accepted c).
  - destruct c as [w h]; simpl in *. exact Hstep.
  - rewrite Hstep. exact H.
Qed.

(** C2, as stated, fails: a call with a zero dimension is rejected, so the
    last requested pair is not the one the frame resizes to. *)
Lemma set_size_rejected_request_not_used :
  let calls := [(50, 200); (0, 5)] in
  last calls (0, 0) = (0, 5) /\
  resize_runs
    (log (do_frame sample_env (final (set_sizes sample_env calls sample_state))))
  = [(50, 200)].
Proof. split; reflexivity. Qed.

(** C2, amended.  After any sequence of [wlt_window_set_size] calls, the
    frame runs the resize algorithm with the pair of the last call whose
    width and height are both non-zero (a call with a zero dimension is
    rejected and changes nothing); and whatever the window state, one
    serviced frame runs the resize algorithm at most once. *)
Theorem set_size_last_accepted_wins :
  (forall env st, (List.length (resize_runs (log (do_frame env st))) <= 1)%nat) /\
  (forall env env' st calls w h,
     last_accepted calls = Some (w, h) ->
     resize_runs (log (do_frame env' (final (set_sizes env calls st))))
     = [(w, h)]).
Proof.
  split.
  - intros env st. rewrite do_frame_runs.
    destruct (need_resize (st_wnd st)); simpl; lia.
  - intros env env' st calls w h Hlast.
    pose proof (set_sizes_pending env calls st None I) as Hp.
    unfold last_accepted in Hlast. rewrite Hlast in Hp.
    destruct Hp as (Hnr & Hw & Hh).
    rewrite do_frame_runs, Hnr, Hw, Hh. reflexivity.
Qed.

Lemma set_size_last_accepted_wins_witness :
  resize_runs
    (log (do_frame sample_env
            (final (set_sizes sample_env [(50, 200); (0, 5); (64, 48); (7, 0)]
                      sample_state))))
  = [(64, 48)].
Proof.
  apply (proj2 set_size_last_accepted_wins sample_env sample_env sample_state
           [(50, 200); (0, 5); (64, 48); (7, 0)] 64 48).
  reflexivity.
Defined.

(** ** Frames with callbacks that call back *)

Lemma bind_ext {S A B : Type} (m m' : M S A) (k k' : A -> M S B) (s : S) :
  m s = m' s -> (forall a s', k a s' = k' a s') ->
  bind m k s = bind m' k' s.
Proof.
  intros Hm Hk. unfold bind. rewrite Hm.
  destruct (m' s) as [[a s1] l1]. rewrite Hk. reflexivity.
Qed.

Lemma for_each_ext {S A : Type} (l : list A) (f g : A -> M S unit) :
  (forall a s, f a s = g a s) ->
  forall s, shl_dlist_for_each l f s = shl_dlist_for_each l g s.
Proof.
  intros H. induction l as [|a l IH]; intros s; simpl; [reflexivity|].
  apply bind_ext; [apply H | intros _ s'; apply IH].
Qed.

(** With callbacks that make no call, the frame functions of this section
    run as the ones of the first model. *)
Lemma do_redraw_no_reentry (env : sys_env) (oldw oldh : Z) (st : wstate) :
  Reentrant.wlt_window_do_redraw no_reentry env oldw oldh st
  = wlt_window_do_redraw oldw oldh st.
Proof.
  unfold Reentrant.wlt_window_do_redraw, wlt_window_do_redraw.
  apply bind_ext; [reflexivity|]. intros wnd s1.
  apply bind_ext.
  { apply for_each_ext. intros widget s.
    destruct (negb (is_null (resize_cb widget))); reflexivity. }
  intros _ s2. apply bind_ext; [reflexivity|]. intros _ s3.
  apply bind_ext; [reflexivity|]. intros _ s4.
  apply bind_ext; [|reflexivity].
  apply for_each_ext. intros widget s.
  destruct (negb (is_null (redraw_cb widget))); reflexivity.
Qed.

Lemma prepare_resize_no_reentry (env : sys_env) (l : list wlt_widget) :
  forall w h st,
    Reentrant.prepare_resize no_reentry env l w h st = prepare_resize l w h st.
Proof.
  induction l as [|widget l IH]; intros w h st; simpl; [reflexivity|].
  destruct (prepare_resize_cb widget) as [cb|]; [|apply IH].
  apply bind_ext; [reflexivity|]. intros _ s1.
  unfold Reentrant.call_back. simpl. unfold bind at 1, ret at 1.
  rewrite IH. destruct (prepare_resize l _ _ s1) as [[adj s2] lg].
  reflexivity.
Qed.

Lemma resize_window_no_reentry (env : sys_env) (w h : Z) (st : wstate) :
  Reentrant.resize_window no_reentry env w h st = resize_window env w h st.
Proof.
  unfold Reentrant.resize_window, resize_window.
  apply bind_ext; [reflexivity|]. intros _ s1.
  destruct (is_null w || is_null h); [reflexivity|].
  apply bind_ext; [reflexivity|]. intros wnd s2.
  apply bind_ext; [apply prepare_resize_no_reentry|]. intros adj s3.
  destruct ((fst adj =? width (buffer wnd))
            && (snd adj =? height (buffer wnd))); [reflexivity|].
  apply bind_ext; [reflexivity|]. intros [err|[old_buffer old_pool]] s4;
    [reflexivity|].
  apply bind_ext; [reflexivity|]. intros wnd' s5.
  apply bind_ext; [reflexivity|]. intros _ s6.
  apply bind_ext; [reflexivity|]. intros _ s7.
  apply bind_ext; [apply do_redraw_no_reentry | reflexivity].
Qed.

Lemma do_frame_no_reentry (env : sys_env) (st : wstate) :
  Reentrant.do_frame no_reentry env st = do_frame env st.
Proof.
  unfold Reentrant.do_frame, do_frame.
  apply bind_ext; [reflexivity|]. intros _ s1.
  apply bind_ext; [reflexivity|]. intros _ s2.
  apply bind_ext; [reflexivity|]. intros wnd s3.
  apply bind_ext.
  { destruct (need_resize wnd); [|reflexivity]. unfold when.
    apply bind_ext; [reflexivity|]. intros _ s4.
    apply bind_ext; [reflexivity|]. intros _ s5.
    apply bind_ext; [apply resize_window_no_reentry | reflexivity]. }
  intros _ s4. apply bind_ext; [reflexivity|]. intros wnd' s5.
  destruct (need_redraw wnd'); [|reflexivity]. unfold when.
  apply bind_ext; [reflexivity|]. intros _ s6.
  apply do_redraw_no_reentry.
Qed.








(** ** Deferred close *)










(** The pairing covers two calls.  A third call before the event loop
    runs leaves a registration that neither the first dispatch nor
    [close_window] takes off, and the callback is called again. *)
Example wlt_window_close_three_times :
  let fires := shl_dlist_for_each (repeat Close_window 3)
                 (idle_dispatch sample_env) in
  close_cb_count
    (log ((wlt_window_close ;; wlt_window_close ;; wlt_window_close ;;
           fires) sample_state))
  = 2%nat.
Proof. reflexivity. Qed.

(** ** Buffer views *)

(** A rectangle whose origin is outside the committed extent yields the
    all-zero descriptor. *)
Lemma get_buffer_outside (wnd : wlt_window) (alloc : wlt_rect)
    (buf0 : wlt_shm_buffer) :
  width (buffer wnd) <= rect_x alloc \/ height (buffer wnd) <= rect_y alloc ->
  wlt_window_get_buffer wnd (Some alloc) buf0
  = {| data := NULL; width := 0; height := 0; stride := 0 |}.
Proof.
  intros H. unfold wlt_window_get_buffer.
  destruct (rect_x alloc >=? width (buffer wnd)) eqn:Ex;
    destruct (rect_y alloc >=? height (buffer wnd)) eqn:Ey;
    simpl; try reflexivity.
  bool_hyps. lia.
Qed.

(** Where [x + width] and [y + height] stay below [2^32], the view is
    clipped to the intersection with the committed extent. *)
Lemma get_buffer_clip_no_wrap (wnd : wlt_window) (alloc : wlt_rect)
    (buf0 : wlt_shm_buffer) :
  0 <= rect_x alloc < width (buffer wnd) ->
  0 <= rect_y alloc < height (buffer wnd) ->
  0 <= rect_width alloc -> 0 <= rect_height alloc ->
  width (buffer wnd) < 2 ^ 32 -> height (buffer wnd) < 2 ^ 32 ->
  rect_x alloc + rect_width alloc < 2 ^ 32 ->
  rect_y alloc + rect_height alloc < 2 ^ 32 ->
  let buf := wlt_window_get_buffer wnd (Some alloc) buf0 in
  width buf
  = Z.min (rect_x alloc + rect_width alloc) (width (buffer wnd))
    - rect_x alloc /\
  height buf
  = Z.min (rect_y alloc + rect_height alloc) (height (buffer wnd))
    - rect_y alloc.
Proof.
  intros Hx Hy Hw Hh HW HH Hxw Hyh. unfold wlt_window_get_buffer, u32.
  destruct (rect_x alloc >=? width (buffer wnd)) eqn:Ex;
    [bool_hyps; lia|].
  destruct (rect_y alloc >=? height (buffer wnd)) eqn:Ey;
    [bool_hyps; lia|].
  simpl.
  rewrite (Z.mod_small (rect_x alloc + rect_width alloc)) by lia.
  rewrite (Z.mod_small (rect_y alloc + rect_height alloc)) by lia.
  rewrite (Z.mod_small (width (buffer wnd) - rect_x alloc)) by lia.
  rewrite (Z.mod_small (height (buffer wnd) - rect_y alloc)) by lia.
  split; case_if; bool_hyps; lia.
Qed.

(** C6: the claim fails on the code.  On a committed 100x100 buffer the
    rectangle at x = 1 of width 2^32 - 1 meets the extent in 99 columns,
    but [x + width] wraps to 0, the test against the committed width
    fails, and the view keeps the requested width. *)
Theorem get_buffer_clip_wraps :
  let alloc := {| rect_x := 1; rect_y := 0;
                  rect_width := 4294967295; rect_height := 10 |} in
  let buf := wlt_window_get_buffer sample_window (Some alloc)
               {| data := NULL; width := 0; height := 0; stride := 0 |} in
  width buf = 4294967295 /\
  Z.min (rect_x alloc + rect_width alloc) (width (buffer sample_window))
    - rect_x alloc = 99.
Proof. split; reflexivity. Qed.

(** Where the byte offsets fit 32 bits, the view starts at
    [base + y * stride + x * 4] and keeps the committed stride. *)
Lemma get_buffer_offset_no_wrap (wnd : wlt_window) (alloc : wlt_rect)
    (buf0 : wlt_shm_buffer) :
  0 <= rect_x alloc < width (buffer wnd) ->
  0 <= rect_y alloc < height (buffer wnd) ->
  0 <= stride (buffer wnd) ->
  rect_y alloc * stride (buffer wnd) < 2 ^ 32 ->
  rect_x alloc * 4 < 2 ^ 32 ->
  let buf := wlt_window_get_buffer wnd (Some alloc) buf0 in
  data buf
  = data (buffer wnd) + rect_y alloc * stride (buffer wnd)
    + rect_x alloc * 4 /\
  stride buf = stride (buffer wnd).
Proof.
  intros Hx Hy Hs Hys Hx4. unfold wlt_window_get_buffer, u32.
  destruct (rect_x alloc >=? width (buffer wnd)) eqn:Ex;
    [bool_hyps; lia|].
  destruct (rect_y alloc >=? height (buffer wnd)) eqn:Ey;
    [bool_hyps; lia|].
  simpl.
  rewrite (Z.mod_small (rect_y alloc * stride (buffer wnd))) by nia.
  rewrite (Z.mod_small (rect_x alloc * 4)) by lia.
  split; reflexivity.
Qed.

(** What a successful, size-changing resize commits. *)
Lemma resize_window_commits (env : sys_env) (st : wstate) (w h : Z) :
  let r := resize_window env w h st in
  let target := adjusted_size (widget_list (st_wnd st)) w h in
  w <> 0 -> h <> 0 -> target <> committed_size (st_wnd st) ->
  result r = 0 ->
  width (buffer (st_wnd (final r))) = fst target /\
  height (buffer (st_wnd (final r))) = snd target /\
  stride (buffer (st_wnd (final r))) = u32 (fst target * 4) /\
  w_buffer (st_wnd (final r)) = env_create_buffer env.
Proof.
  destruct st as [wnd idl]. simpl. intros Hw Hh Hneq.
  unfold committed_size in Hneq.
  pose proof (wlt_pool_new_error env) as Herr.
  run_resize; unfold result, final; simpl in *; intros Hret; bool_hyps;
    try lia; try discriminate;
    try (exfalso; apply Hneq;
         destruct (adjusted_size (widget_list wnd) w h), (buffer wnd);
         simpl in *; congruence);
    try (exfalso; apply Herr in Hret; [lia | congruence]);
    repeat match goal with
           | H : buffer _ = _ |- _ => rewrite H
           | H : w_buffer _ = _ |- _ => rewrite H
           end;
    simpl; repeat split; reflexivity.
Qed.

(** With a width below [2^30], the committed stride is four times the
    committed width. *)
Lemma resize_window_stride (env : sys_env) (st : wstate) (w h : Z) :
  let r := resize_window env w h st in
  let target := adjusted_size (widget_list (st_wnd st)) w h in
  w <> 0 -> h <> 0 -> target <> committed_size (st_wnd st) ->
  result r = 0 ->
  0 <= fst target < 2 ^ 30 ->
  stride (buffer (st_wnd (final r)))
  = 4 * width (buffer (st_wnd (final r))).
Proof.
  intros r target Hw Hh Hneq Hret Hrange.
  destruct (resize_window_commits env st w h Hw Hh Hneq Hret)
    as (Hwd & _ & Hst & _).
  fold r in Hwd, Hst. fold target in Hwd, Hst.
  rewrite Hst, Hwd. unfold u32. rewrite Z.mod_small by lia. lia.
Qed.

(** C7: the claim fails on the code.  A resize to width 2^30 succeeds and
    commits stride 0, not four times the width; and in the committed
    65536x65537 buffer the row offset [16384 * stride] wraps to 0, so the
    view of the in-bounds rectangle at row 16384 starts at the base of the
    buffer and not 2^32 bytes further. *)
Theorem resize_stride_and_offset_wrap :
  (let r := resize_window sample_env 1073741824 1 sample_state in
   result r = 0 /\
   width (buffer (st_wnd (final r))) = 1073741824 /\
   stride (buffer (st_wnd (final r))) = 0) /\
  (let r := resize_window sample_env 65536 65537 sample_state in
   let alloc := {| rect_x := 0; rect_y := 16384;
                   rect_width := 1; rect_height := 1 |} in
   let buf := wlt_window_get_buffer (st_wnd (final r)) (Some alloc)
                {| data := NULL; width := 0; height := 0; stride := 0 |} in
   result r = 0 /\
   buffer (st_wnd (final r))
   = {| data := 8192; width := 65536; height := 65537; stride := 262144 |} /\
   data buf = 8192 /\
   8192 + rect_y alloc * 262144 + rect_x alloc * 4 = 8192 + 4294967296).
Proof. repeat split; reflexivity. Qed.

(** ** The pending target is never zero *)

Lemma schedule_frame_keeps (env : sys_env) (st : wstate) :
  need_resize (st_wnd (final (schedule_frame env st)))
  = need_resize (st_wnd st) /\
  new_width (st_wnd (final (schedule_frame env st))) = new_width (st_wnd st) /\
  new_height (st_wnd (final (schedule_frame env st)))
  = new_height (st_wnd st).
Proof.
  destruct st as [wnd idl]. unfold schedule_frame. run_monad.
  repeat (case_if; simpl); unfold final; simpl; auto.
Qed.

Lemma do_frame_clears_resize (env : sys_env) (st : wstate) :
  need_resize (st_wnd (final (do_frame env st))) = false.
Proof.
  destruct st as [wnd idl]. unfold do_frame. run_monad.
  destruct (need_resize wnd) eqn:Hnr; simpl.
  - resize_step; simpl. simpl in *.
    case_if; simpl; repeat redraw_step; unfold final; simpl in *;
      congruence.
  - case_if; simpl; repeat redraw_step; unfold final; simpl in *;
      congruence.
Qed.

Lemma set_size_target_ok (env : sys_env) (w h : Z) (st : wstate) :
  target_ok (st_wnd st) ->
  target_ok (st_wnd (final (wlt_window_set_size env w h st))).
Proof.
  intros Hok.
  pose proof (set_size_step env w h st) as Hs. simpl in Hs.
  unfold accepted, is_null in Hs. simpl in Hs.
  destruct (Z.eqb_spec w 0); destruct (Z.eqb_spec h 0); simpl in Hs;
    try (rewrite Hs; exact Hok).
  destruct Hs as (_ & Hw & Hh). intros _. rewrite Hw, Hh. auto.
Qed.

(** Every operation on a window keeps the pending target non-zero, so
    [do_frame] never hands [resize_window] a zero width or height. *)
Lemma wnd_step_target_ok (env : sys_env) (op : wnd_op) (st : wstate) :
  target_ok (st_wnd st) ->
  target_ok (st_wnd (final (wnd_step env op st))).
Proof.
  intros Hok. destruct op as [w h|edges w h| |cb| |cb|w_callback time];
    unfold wnd_step.
  - rewrite final_bind, final_ret. apply set_size_target_ok, Hok.
  - unfold shell_surface_configure.
    rewrite !final_bind, final_ret. apply set_size_target_ok.
    destruct st as [wnd idl]. exact Hok.
  - unfold wlt_window_schedule_redraw. rewrite final_bind.
    match goal with
    | |- context [schedule_frame env ?s] =>
        destruct (schedule_frame_keeps env s) as (H1 & H2 & H3)
    end.
    unfold target_ok. rewrite H1, H2, H3. destruct st as [wnd idl].
    exact Hok.
  - destruct st as [wnd idl]. exact Hok.
  - destruct st as [wnd idl]. exact Hok.
  - unfold idle_dispatch. rewrite final_bind.
    unfold get, result, final at 2. simpl.
    case_if; [|exact Hok].
    rewrite final_bind. unfold modify, result, final at 2. simpl.
    destruct cb.
    + unfold idle_frame. rewrite final_bind.
      intros H. rewrite do_frame_clears_resize in H. discriminate.
    + destruct st as [wnd idl]. unfold close_window. run_monad.
      case_if; exact Hok.
  - unfold frame_callback. rewrite !final_bind.
    intros H. rewrite do_frame_clears_resize in H. discriminate.
Qed.

Lemma wnd_run_target_ok (env : sys_env) (ops : list wnd_op) :
  forall st,
    target_ok (st_wnd st) ->
    target_ok (st_wnd (final (wnd_run env ops st))).
Proof.
  induction ops as [|op ops IH]; intros st Hok; [exact Hok|].
  unfold wnd_run; simpl. rewrite final_bind.
  apply IH, wnd_step_target_ok, Hok.
Qed.

(** So the frames of a window whose pending target is non-zero, as it is
    in every state the operations above lead to, run the resize algorithm
    with non-zero sizes only. *)
Lemma do_frame_resize_args_nonzero (env : sys_env) (st : wstate) :
  target_ok (st_wnd st) ->
  Forall (fun c => fst c <> 0 /\ snd c <> 0)
    (resize_runs (log (do_frame env st))).
Proof.
  intros Hok. rewrite do_frame_runs.
  destruct (need_resize (st_wnd st)) eqn:Hnr; constructor.
  - apply Hok. exact Hnr.
  - constructor.
Qed.

(** The end-to-end example of the specification: a 100x100 window,
    [set_size(50, 200)], one frame: the committed view is 50x200 with
    stride 200, in the pool the window already had. *)
Example frame_commits_requested_size :
  let st := final ((wlt_window_set_size sample_env 50 200 ;;
                    idle_dispatch sample_env Idle_frame) sample_state) in
  buffer (st_wnd st)
  = {| data := 4096; width := 50; height := 200; stride := 200 |} /\
  pool (st_wnd st) = pool sample_window.
Proof. split; reflexivity. Qed.

